(** * situation-monitor: the client-side TTL cache and its cache-aside wrapper

    Shallow embedding of [src/lib/utils/cache.ts] (class [LocalCache] and
    [fetchWithCache]) and of the daily cache key of
    [src/lib/api/treasury.ts] ([fetchYieldCurve]); then of the caching of
    [fetchYieldCurve], of the cache keys of the other callers, of the Fear &
    Greed classification and of the helpers [hashCode] and [timeAgo] of the
    news modules.

    Modelling conventions.
    - [localStorage] is a finite map from strings to strings; writes always
      succeed (no quota), so the [catch] branch of [LocalCache.set] is never
      taken in the model.
    - JavaScript numbers are integers ([Z]) or [NaN]: [Date.now()] is an
      integral number of milliseconds and TTLs are taken integral.  Fractions
      and infinities are outside the model.
    - [JSON.stringify], [JSON.parse] and the coercion of strings, arrays and
      objects to numbers are operations of the platform, not of the
      repository: they are the methods of the class [Platform], and every
      result holds for an arbitrary instance.  [Reference] is an executable
      instance used to run the model on examples.
    - [console.log] / [console.error] append structured events to a trace.
    - A producer [() => Promise<T>] is a step function on a private state
      that settles with a JSON value or an error and takes some time; one
      call of [fetchWithCache] runs alone, nothing else touches storage
      while the producer is awaited. *)

From Stdlib Require Import ZArith Ascii String List Lia Bool DecimalString.
From stdpp Require Import gmap strings list fin_maps.

Set Warnings "-register-all".

Local Open Scope string_scope.
Local Open Scope Z_scope.

(** ** JavaScript values *)

Module JS.

(** Values that JSON can carry. *)
Inductive json : Type :=
  | JNull
  | JBool (b : bool)
  | JNum (n : Z)
  | JStr (s : string)
  | JArr (items : list json)
  | JObj (members : list (string * json)).

(** A run-time value: a JSON value or [undefined]. *)
Inductive jsval : Type :=
  | Undefined
  | J (v : json).

Definition null : jsval := J JNull.

(** The result of numeric coercion and arithmetic. *)
Inductive number : Type :=
  | Finite (z : Z)
  | NaN.

(** [a - b] *)
Definition minus (a b : number) : number :=
  match a, b with
  | Finite x, Finite y => Finite (x - y)
  | _, _ => NaN
  end.

(** [a > b]: false as soon as one side is [NaN]. *)
Definition gt (a b : number) : bool :=
  match a, b with
  | Finite x, Finite y => y <? x
  | _, _ => false
  end.

(** [a <= b]: false as soon as one side is [NaN]. *)
Definition le (a b : number) : bool :=
  match a, b with
  | Finite x, Finite y => x <=? y
  | _, _ => false
  end.

Definition is_empty (s : string) : bool :=
  match s with
  | EmptyString => true
  | String _ _ => false
  end.

(** [if (v)]: the falsy values are [undefined], [null], [false], [0] and the
    empty string. *)
Definition truthy (v : jsval) : bool :=
  match v with
  | Undefined => false
  | J JNull => false
  | J (JBool b) => b
  | J (JNum n) => negb (n =? 0)
  | J (JStr s) => negb (is_empty s)
  | J (JArr _) => true
  | J (JObj _) => true
  end.

(** Own property [name] of an object literal. *)
Fixpoint assoc (name : string) (members : list (string * json)) : jsval :=
  match members with
  | [] => Undefined
  | (k, v) :: rest => if String.eqb k name then J v else assoc name rest
  end.

(** [item.name] for the names the cache reads ([data], [timestamp], [ttl]):
    [None] is the [TypeError] raised on [null]; primitives and arrays have no
    such property. *)
Definition member (item : json) (name : string) : option jsval :=
  match item with
  | JNull => None
  | JObj members => Some (assoc name members)
  | _ => Some Undefined
  end.

(** [s.startsWith(p)] *)
Fixpoint startsWith (p s : string) : bool :=
  match p, s with
  | EmptyString, _ => true
  | String a p', String b s' => if Ascii.eqb a b then startsWith p' s' else false
  | String _ _, EmptyString => false
  end.

End JS.

Import JS.

(** ** The platform *)

(** What the cache takes from the JavaScript engine.  [JSON_parse] returns
    [None] where [JSON.parse] throws a [SyntaxError]; [ToNumber_object] is
    the numeric coercion of strings, arrays and objects. *)
Class Platform : Type := {
  JSON_stringify : json -> string;
  JSON_parse : string -> option json;
  ToNumber_object : json -> number;
  (** the empty text is not JSON *)
  JSON_parse_empty : JSON_parse EmptyString = None
}.

(** Numeric coercion of an operand of [-], [>] or [<=]. *)
Definition ToNumber `{Platform} (v : jsval) : number :=
  match v with
  | Undefined => NaN
  | J JNull => Finite 0
  | J (JBool b) => Finite (if b then 1 else 0)
  | J (JNum n) => Finite n
  | J other => ToNumber_object other
  end.

(** ** The browser: [localStorage], the clock and the console *)

Inductive LogEvent : Type :=
  | Stored (key : string) (ttlMinutes : Z)
  | Expired (key : string) (age : number)
  | Hit (key : string) (age : number)
  | FailedToRetrieve
  | Cleared (entries : nat)
  | ForceRefresh (key : string).

Record Browser : Type := mkBrowser {
  localStorage : gmap string string;
  clock : Z;
  console : list LogEvent
}.

Definition getItem (k : string) (st : gmap string string) : option string := st !! k.
Definition setItem (k v : string) (st : gmap string string) : gmap string string := <[k := v]> st.
Definition removeItem (k : string) (st : gmap string string) : gmap string string := delete k st.

(** The keys [localStorage.key(0)], ..., [localStorage.key(length - 1)]. *)
Definition keys (st : gmap string string) : list string := (map_to_list st).*1.

Definition with_storage (f : gmap string string -> gmap string string) (b : Browser) : Browser :=
  mkBrowser (f (localStorage b)) (clock b) (console b).

Definition log (e : LogEvent) (b : Browser) : Browser :=
  mkBrowser (localStorage b) (clock b) (console b ++ [e]).

(** The browser while the producer is awaited for [elapsed] milliseconds. *)
Definition later (elapsed : Z) (b : Browser) : Browser :=
  mkBrowser (localStorage b) (clock b + elapsed) (console b).

(** ** class LocalCache *)

Module LocalCache.
Section WithPlatform.
Context `{Platform}.

Definition PREFIX : string := "sm_cache_".

Definition CacheItem (data : json) (timestamp ttl : Z) : json :=
  JObj [("data", data); ("timestamp", JNum timestamp); ("ttl", JNum ttl)].

(** [static set<T>(key, data, ttlMinutes): void] *)
Definition set (key : string) (data : json) (ttlMinutes : Z) (b : Browser) : Browser :=
  let item := CacheItem data (clock b) (ttlMinutes * 60 * 1000) in
  let b := with_storage (setItem (PREFIX +:+ key) (JSON_stringify item)) b in
  log (Stored key ttlMinutes) b.

(** The body of the [try] block of [get]; [None] when it throws. *)
Definition get_try (key : string) (b : Browser) : option (jsval * Browser) :=
  match getItem (PREFIX +:+ key) (localStorage b) with
  | None => Some (null, b)
  | Some stored =>
    if is_empty stored then Some (null, b) else
    item ← JSON_parse stored;
    let now := Finite (clock b) in
    timestamp ← member item "timestamp";
    let age := minus now (ToNumber timestamp) in
    ttl ← member item "ttl";
    if gt age (ToNumber ttl) then
      let b := with_storage (removeItem (PREFIX +:+ key)) b in
      let b := log (Expired key age) b in
      Some (null, b)
    else
      let b := log (Hit key age) b in
      data ← member item "data";
      Some (data, b)
  end.

(** [static get<T>(key): T | null] *)
Definition get (key : string) (b : Browser) : jsval * Browser :=
  match get_try key b with
  | Some r => r
  | None => (null, log FailedToRetrieve b)
  end.

(** [static isValid(key): boolean] *)
Definition isValid (key : string) (b : Browser) : bool * Browser :=
  let '(v, b) := get key b in
  (match v with J JNull => false | _ => true end, b).

(** [static remove(key): void] *)
Definition remove (key : string) (b : Browser) : Browser :=
  with_storage (removeItem (PREFIX +:+ key)) b.

(** [static clearAll(): void] *)
Definition clearAll (b : Browser) : Browser :=
  let keysToRemove := List.filter (startsWith PREFIX) (keys (localStorage b)) in
  let b := with_storage (fun st => fold_left (fun st key => removeItem key st) keysToRemove st) b in
  log (Cleared (length keysToRemove)) b.

Record Stats : Type := mkStats { total : nat; valid : nat; expired : nat }.

(** The body of the [try] block of [getStats], the test
    [Date.now() - item.timestamp <= item.ttl]; [None] when it throws. *)
Definition fresh_try (stored : string) (now : Z) : option bool :=
  item ← JSON_parse stored;
  timestamp ← member item "timestamp";
  ttl ← member item "ttl";
  Some (le (minus (Finite now) (ToNumber timestamp)) (ToNumber ttl)).

(** One turn of the loop of [getStats], at the key [key]. *)
Definition getStats_step (st : gmap string string) (now : Z) (acc : Stats) (key : string) : Stats :=
  if startsWith PREFIX key then
    let acc := mkStats (S (total acc)) (valid acc) (expired acc) in
    match getItem key st with
    | Some stored =>
      if is_empty stored then acc else
      match fresh_try stored now with
      | Some true => mkStats (total acc) (S (valid acc)) (expired acc)
      | Some false => mkStats (total acc) (valid acc) (S (expired acc))
      | None => mkStats (total acc) (valid acc) (S (expired acc))
      end
    | None => acc
    end
  else acc.

(** [static getStats(): { total, valid, expired }] *)
Definition getStats (b : Browser) : Stats :=
  fold_left (getStats_step (localStorage b) (clock b)) (keys (localStorage b)) (mkStats 0 0 0).

End WithPlatform.
End LocalCache.

(** ** CACHE_CONFIG *)

Record CacheConfig : Type := mkConfig { key : string; ttl : Z }.

Module CACHE_CONFIG.
Definition TREASURY_YIELDS := mkConfig "treasury_yields_daily" 60.
Definition MOVE_INDEX := mkConfig "move_index_hourly" 30.
Definition FEAR_GREED := mkConfig "fear_greed_hourly" 60.
Definition STOCK_QUOTES := mkConfig "stock_quote_" 15.
Definition EARNINGS_CALENDAR := mkConfig "earnings_calendar" 360.
Definition MACRO_INDICATORS := mkConfig "macro_" 1440.
Definition AI_INDUSTRY := mkConfig "ai_industry" 720.
Definition FOMC_SCHEDULE := mkConfig "fomc_schedule" 10080.
End CACHE_CONFIG.

(** ** fetchWithCache *)

(** The outcome of awaiting a promise. *)
Inductive Outcome (E A : Type) : Type :=
  | Returned (a : A)
  | Thrown (e : E).
Arguments Returned {E A} a.
Arguments Thrown {E A} e.

(** A producer [() => Promise<T>] with private state [P]: one invocation
    settles with a value or an error, moves the producer to its next state
    and takes some time (in milliseconds).  It does not touch
    [localStorage]. *)
Definition Producer (P E : Type) : Type := P -> Outcome E json * P * Z.

(** The state an asynchronous computation runs in: the browser, the state of
    the producer and the number of times the producer has been invoked. *)
Record Session (P : Type) : Type := mkSession {
  browser : Browser;
  producer : P;
  invocations : nat
}.
Arguments mkSession {P} _ _ _.
Arguments browser {P} _.
Arguments producer {P} _.
Arguments invocations {P} _.

Definition Async (P E A : Type) : Type := Session P -> Outcome E A * Session P.

Section Async.
Context {P E : Type}.

#[export] Instance Async_ret : MRet (Async P E) :=
  fun A a s => (Returned a, s).

#[export] Instance Async_bind : MBind (Async P E) :=
  fun A B k m s =>
    match m s with
    | (Returned a, s') => k a s'
    | (Thrown e, s') => (Thrown e, s')
    end.

(** [await fetchFn()] *)
Definition await (fetchFn : Producer P E) : Async P E json :=
  fun s =>
    let '(r, p, elapsed) := fetchFn (producer s) in
    (r, mkSession (later elapsed (browser s)) p (S (invocations s))).

(** A synchronous call that returns a value. *)
Definition call {A : Type} (f : Browser -> A * Browser) : Async P E A :=
  fun s =>
    let '(a, b) := f (browser s) in
    (Returned a, mkSession b (producer s) (invocations s)).

(** A synchronous call that returns nothing. *)
Definition exec (f : Browser -> Browser) : Async P E () :=
  call (fun b => ((), f b)).

Context `{Platform}.

(** [fetchWithCache<T>(cacheKey, fetchFn, ttlMinutes = 60, forceRefresh = false)] *)
Definition fetchWithCache (cacheKey : string) (fetchFn : Producer P E)
    (ttlMinutes : option Z) (forceRefresh : option bool) : Async P E jsval :=
  let ttlMinutes := default 60 ttlMinutes in
  let forceRefresh := default false forceRefresh in
  if forceRefresh then
    exec (log (ForceRefresh cacheKey));;
    data ← await fetchFn;
    exec (LocalCache.set cacheKey data ttlMinutes);;
    mret (J data)
  else
    cached ← call (LocalCache.get cacheKey);
    if truthy cached then mret cached else
    data ← await fetchFn;
    exec (LocalCache.set cacheKey data ttlMinutes);;
    mret (J data).

End Async.

(** ** Date: the UTC calendar of [toISOString] *)

(** The abstract operations of the language standard on time values
    (milliseconds since 1970-01-01T00:00:00Z). *)
Module Date.

Definition msPerDay : Z := 86400000.

(** The time values a [Date] can hold. *)
Definition valid (t : Z) : Prop := -8640000000000000 <= t <= 8640000000000000.

Definition Day (t : Z) : Z := t / msPerDay.
Definition TimeWithinDay (t : Z) : Z := t mod msPerDay.

Definition leap (y : Z) : bool :=
  (y mod 4 =? 0) && (negb (y mod 100 =? 0) || (y mod 400 =? 0)).

Definition DaysInYear (y : Z) : Z := if leap y then 366 else 365.

(** The day number of the first day of year [y]. *)
Definition DayFromYear (y : Z) : Z :=
  365 * (y - 1970) + (y - 1969) / 4 - (y - 1901) / 100 + (y - 1601) / 400.

(** The year a day falls in: the largest [y] with [DayFromYear y <= day],
    found from the mean length of a year, 146097 / 400 days. *)
Definition YearFromDay (day : Z) : Z :=
  let y := 1970 + (400 * day) / 146097 in
  if day <? DayFromYear y then y - 1
  else if DayFromYear (y + 1) <=? day then y + 1
  else y.

Definition YearFromTime (t : Z) : Z := YearFromDay (Day t).
Definition InLeapYear (t : Z) : Z := if leap (YearFromTime t) then 1 else 0.
Definition DayWithinYear (t : Z) : Z := Day t - DayFromYear (YearFromTime t).

(** The month, from 0 (January) to 11 (December). *)
Definition MonthFromTime (t : Z) : Z :=
  let d := DayWithinYear t in
  let l := InLeapYear t in
  if d <? 31 then 0
  else if d <? 59 + l then 1
  else if d <? 90 + l then 2
  else if d <? 120 + l then 3
  else if d <? 151 + l then 4
  else if d <? 181 + l then 5
  else if d <? 212 + l then 6
  else if d <? 243 + l then 7
  else if d <? 273 + l then 8
  else if d <? 304 + l then 9
  else if d <? 334 + l then 10
  else 11.

(** The number of days of the year before month [m]. *)
Definition month_start (m l : Z) : Z :=
  match m with
  | 0 => 0
  | 1 => 31
  | 2 => 59 + l
  | 3 => 90 + l
  | 4 => 120 + l
  | 5 => 151 + l
  | 6 => 181 + l
  | 7 => 212 + l
  | 8 => 243 + l
  | 9 => 273 + l
  | 10 => 304 + l
  | _ => 334 + l
  end.

(** The day of the month, from 1. *)
Definition DateFromTime (t : Z) : Z :=
  DayWithinYear t - month_start (MonthFromTime t) (InLeapYear t) + 1.

Definition HourFromTime (t : Z) : Z := TimeWithinDay t / 3600000.
Definition MinFromTime (t : Z) : Z := TimeWithinDay t / 60000 mod 60.
Definition SecFromTime (t : Z) : Z := TimeWithinDay t / 1000 mod 60.
Definition msFromTime (t : Z) : Z := TimeWithinDay t mod 1000.

Definition digit (n : Z) : ascii := ascii_of_nat (48 + Z.to_nat n).

(** The last [width] decimal digits of [n], most significant first, in front
    of [rest]. *)
Fixpoint digits (width : nat) (n : Z) (rest : string) : string :=
  match width with
  | O => rest
  | S w => digits w (n / 10) (String (digit (n mod 10)) rest)
  end.

(** Four digits for the years 0 to 9999, a sign and six digits otherwise. *)
Definition year_digits (y : Z) (rest : string) : string :=
  if (0 <=? y) && (y <=? 9999) then digits 4 y rest
  else String (if y <? 0 then "-"%char else "+"%char) (digits 6 (Z.abs y) rest).

(** [new Date(t).toISOString()]: [YYYY-MM-DDTHH:mm:ss.sssZ]. *)
Definition toISOString (t : Z) : string :=
  let time :=
    digits 2 (HourFromTime t) (String ":" (digits 2 (MinFromTime t) (String ":"
      (digits 2 (SecFromTime t) (String "." (digits 3 (msFromTime t) "Z")))))) in
  year_digits (YearFromTime t) (String "-" (digits 2 (MonthFromTime t + 1) (String "-"
    (digits 2 (DateFromTime t) (String "T" time))))).

End Date.

(** [s.split(sep)[0]] for a one-character separator. *)
Fixpoint split_first (sep : ascii) (s : string) : string :=
  match s with
  | EmptyString => EmptyString
  | String c s' => if Ascii.eqb c sep then EmptyString else String c (split_first sep s')
  end.

(** ** treasury.ts: the daily cache key of [fetchYieldCurve] *)

Module Treasury.

(** [new Date().toISOString().split('T')[0]] at the time value [now]. *)
Definition today (now : Z) : string := split_first "T" (Date.toISOString now).

(** [`${CACHE_CONFIG.TREASURY_YIELDS.key}_${today}`] *)
Definition dailyKey (now : Z) : string :=
  key CACHE_CONFIG.TREASURY_YIELDS +:+ "_" +:+ today now.

End Treasury.

(** ** A reference platform *)

(** An executable [Platform]: a printer and a recursive-descent reader of
    JSON text.  Number literals are integers; a literal with a fraction or an
    exponent, or a string that denotes one, is outside the model. *)
Module Reference.

Definition dquote : ascii := "034"%char.
Definition backslash : ascii := "092"%char.

Definition hex_digit (n : nat) : ascii :=
  if (n <? 10)%nat then ascii_of_nat (48 + n) else ascii_of_nat (87 + n).

(** One character of a string literal, escaped as [JSON.stringify] does. *)
Definition escape (c : ascii) : string :=
  let n := nat_of_ascii c in
  if Ascii.eqb c dquote then String backslash (String dquote EmptyString)
  else if Ascii.eqb c backslash then String backslash (String backslash EmptyString)
  else if (n =? 8)%nat then String backslash "b"
  else if (n =? 9)%nat then String backslash "t"
  else if (n =? 10)%nat then String backslash "n"
  else if (n =? 12)%nat then String backslash "f"
  else if (n =? 13)%nat then String backslash "r"
  else if (n <? 32)%nat then
    String backslash ("u00" +:+ String (hex_digit (n / 16)) (String (hex_digit (n mod 16)) EmptyString))
  else String c EmptyString.

Fixpoint escape_all (s : string) : string :=
  match s with
  | EmptyString => EmptyString
  | String c s' => escape c +:+ escape_all s'
  end.

Definition quote (s : string) : string :=
  String dquote (escape_all s +:+ String dquote EmptyString).

Definition decimal (n : Z) : string := NilZero.string_of_int (Z.to_int n).

Fixpoint join (parts : list string) : string :=
  match parts with
  | [] => EmptyString
  | [x] => x
  | x :: rest => x +:+ "," +:+ join rest
  end.

(** [JSON.stringify(v)] *)
Fixpoint stringify (v : json) : string :=
  match v with
  | JNull => "null"
  | JBool true => "true"
  | JBool false => "false"
  | JNum n => decimal n
  | JStr s => quote s
  | JArr items => "[" +:+ join (List.map stringify items) +:+ "]"
  | JObj members =>
    "{" +:+ join (List.map (fun kv => quote (fst kv) +:+ ":" +:+ stringify (snd kv)) members) +:+ "}"
  end.

Definition is_ws (c : ascii) : bool :=
  let n := nat_of_ascii c in
  (n =? 32)%nat || (n =? 9)%nat || (n =? 10)%nat || (n =? 13)%nat.

Definition is_digit (c : ascii) : bool :=
  let n := nat_of_ascii c in (48 <=? n)%nat && (n <=? 57)%nat.

Fixpoint skip_ws (s : string) : string :=
  match s with
  | String c s' => if is_ws c then skip_ws s' else s
  | EmptyString => s
  end.

(** [expect lit s]: [s] without its prefix [lit]. *)
Fixpoint expect (lit s : string) : option string :=
  match lit, s with
  | EmptyString, _ => Some s
  | String a lit', String b s' => if Ascii.eqb a b then expect lit' s' else None
  | String _ _, EmptyString => None
  end.

(** The digits at the head of [s], as a number, and what follows them. *)
Fixpoint read_digits (acc : Z) (s : string) : Z * string :=
  match s with
  | String c s' =>
    if is_digit c then read_digits (10 * acc + Z.of_nat (nat_of_ascii c - 48)) s'
    else (acc, s)
  | EmptyString => (acc, s)
  end.

Definition starts_number_tail (s : string) : bool :=
  match s with
  | String c _ => Ascii.eqb c "." || Ascii.eqb c "e" || Ascii.eqb c "E"
  | EmptyString => false
  end.

(** An integer literal without its sign: no leading zero. *)
Definition read_natural (s : string) : option (Z * string) :=
  match s with
  | String c s' =>
    if Ascii.eqb c "0" then
      match s' with
      | String d _ => if is_digit d || starts_number_tail s' then None else Some (0, s')
      | EmptyString => Some (0, s')
      end
    else if is_digit c then
      let '(n, rest) := read_digits 0 s in
      if starts_number_tail rest then None else Some (n, rest)
    else None
  | EmptyString => None
  end.

Definition hex_value (c : ascii) : option nat :=
  let n := nat_of_ascii c in
  if (48 <=? n)%nat && (n <=? 57)%nat then Some (n - 48)%nat
  else if (97 <=? n)%nat && (n <=? 102)%nat then Some (n - 87)%nat
  else if (65 <=? n)%nat && (n <=? 70)%nat then Some (n - 55)%nat
  else None.

(** The rest of a string literal, after its opening quote. *)
Fixpoint read_string (fuel : nat) (s : string) : option (string * string) :=
  match fuel, s with
  | S f, String c s' =>
    if Ascii.eqb c dquote then Some (EmptyString, s')
    else if Ascii.eqb c backslash then
      match s' with
      | String e s'' =>
        let literal (x : ascii) :=
          '(str, rest) ← read_string f s''; Some (String x str, rest) in
        if Ascii.eqb e dquote then literal dquote
        else if Ascii.eqb e backslash then literal backslash
        else if Ascii.eqb e "/" then literal "/"%char
        else if Ascii.eqb e "b" then literal "008"%char
        else if Ascii.eqb e "t" then literal "009"%char
        else if Ascii.eqb e "n" then literal "010"%char
        else if Ascii.eqb e "f" then literal "012"%char
        else if Ascii.eqb e "r" then literal "013"%char
        else if Ascii.eqb e "u" then
          match s'' with
          | String h1 (String h2 (String h3 (String h4 s3))) =>
            a ← hex_value h1; b ← hex_value h2; c ← hex_value h3; d ← hex_value h4;
            if ((a =? 0) && (b =? 0))%nat
            then '(str, rest) ← read_string f s3; Some (String (ascii_of_nat (16 * c + d)) str, rest)
            else None
          | _ => None
          end
        else None
      | EmptyString => None
      end
    else if (nat_of_ascii c <? 32)%nat then None
    else '(str, rest) ← read_string f s'; Some (String c str, rest)
  | _, _ => None
  end.

(** A later member replaces an earlier one of the same name. *)
Fixpoint define (k : string) (v : json) (members : list (string * json)) : list (string * json) :=
  match members with
  | [] => [(k, v)]
  | (k', v') :: rest => if String.eqb k' k then (k, v) :: rest else (k', v') :: define k v rest
  end.

Fixpoint read_value (fuel : nat) (s : string) : option (json * string) :=
  match fuel with
  | O => None
  | S f =>
    match skip_ws s with
    | String c s' =>
      if Ascii.eqb c "n" then rest ← expect "ull" s'; Some (JNull, rest)
      else if Ascii.eqb c "t" then rest ← expect "rue" s'; Some (JBool true, rest)
      else if Ascii.eqb c "f" then rest ← expect "alse" s'; Some (JBool false, rest)
      else if Ascii.eqb c dquote then
        '(str, rest) ← read_string (String.length s') s'; Some (JStr str, rest)
      else if Ascii.eqb c "-" then
        '(n, rest) ← read_natural s'; Some (JNum (- n), rest)
      else if is_digit c then
        '(n, rest) ← read_natural (String c s'); Some (JNum n, rest)
      else if Ascii.eqb c "[" then
        match skip_ws s' with
        | String d s'' => if Ascii.eqb d "]" then Some (JArr [], s'') else read_items f s' []
        | EmptyString => None
        end
      else if Ascii.eqb c "{" then
        match skip_ws s' with
        | String d s'' => if Ascii.eqb d "}" then Some (JObj [], s'') else read_members f s' []
        | EmptyString => None
        end
      else None
    | EmptyString => None
    end
  end
with read_items (fuel : nat) (s : string) (acc : list json) : option (json * string) :=
  match fuel with
  | O => None
  | S f =>
    '(v, rest) ← read_value f s;
    match skip_ws rest with
    | String c rest' =>
      if Ascii.eqb c "," then read_items f rest' (acc ++ [v])
      else if Ascii.eqb c "]" then Some (JArr (acc ++ [v]), rest')
      else None
    | EmptyString => None
    end
  end
with read_members (fuel : nat) (s : string) (acc : list (string * json)) : option (json * string) :=
  match fuel with
  | O => None
  | S f =>
    match skip_ws s with
    | String q s' =>
      if Ascii.eqb q dquote then
        '(k, rest) ← read_string (String.length s') s';
        match skip_ws rest with
        | String c rest' =>
          if Ascii.eqb c ":" then
            '(v, rest) ← read_value f rest';
            match skip_ws rest with
            | String c rest' =>
              if Ascii.eqb c "," then read_members f rest' (define k v acc)
              else if Ascii.eqb c "}" then Some (JObj (define k v acc), rest')
              else None
            | EmptyString => None
            end
          else None
        | EmptyString => None
        end
      else None
    | EmptyString => None
    end
  end.

(** [JSON.parse(s)]; [None] is a [SyntaxError]. *)
Definition parse (s : string) : option json :=
  '(v, rest) ← read_value (2 * String.length s + 2) s;
  if is_empty (skip_ws rest) then Some v else None.

(** The number a string denotes: a signed integer literal between optional
    blanks, 0 for a blank string, [NaN] otherwise. *)
Definition StringToNumber (s : string) : number :=
  match skip_ws s with
  | EmptyString => Finite 0
  | String c s' =>
    let '(sign, body) :=
      if Ascii.eqb c "-" then (-1, s') else if Ascii.eqb c "+" then (1, s') else (1, String c s') in
    match body with
    | String d _ =>
      if is_digit d then
        let '(n, rest) := read_digits 0 body in
        if is_empty (skip_ws rest) then Finite (sign * n) else NaN
      else NaN
    | EmptyString => NaN
    end
  end.

(** Numeric coercion of a string, an array or an object: an array goes
    through the text of its elements joined by commas. *)
Fixpoint coerce (v : json) : number :=
  match v with
  | JStr s => StringToNumber s
  | JArr [] => Finite 0
  | JArr [x] =>
    match x with
    | JNull => Finite 0
    | JNum n => Finite n
    | JStr s => StringToNumber s
    | JArr _ => coerce x
    | _ => NaN
    end
  | _ => NaN
  end.

#[export] Instance platform : Platform := {|
  JSON_stringify := stringify;
  JSON_parse := parse;
  ToNumber_object := coerce;
  JSON_parse_empty := eq_refl
|}.

End Reference.

(** ** Vocabulary of the statements *)

Section Vocabulary.
Context `{Platform}.

(** [item] has the expected entry shape: payload [data], stored at
    [timestamp] with a time-to-live of [ttl] milliseconds. *)
Definition is_item (item data : json) (timestamp ttl : Z) : Prop :=
  member item "data" = Some (J data) /\
  member item "timestamp" = Some (J (JNum timestamp)) /\
  member item "ttl" = Some (J (JNum ttl)).

(** The text [stored] is well-formed JSON of the expected entry shape. *)
Definition expected_shape (stored : string) : Prop :=
  exists item data timestamp ttl,
    JSON_parse stored = Some item /\ is_item item data timestamp ttl.

(** Storage holds, for the cache key [key], an entry with payload [data]
    stored at [timestamp] with a time-to-live of [ttl] milliseconds. *)
Definition holds (st : gmap string string) (key : string) (data : json) (timestamp ttl : Z) : Prop :=
  exists stored item,
    st !! (LocalCache.PREFIX +:+ key) = Some stored /\
    JSON_parse stored = Some item /\
    is_item item data timestamp ttl.


(** The same browser at another instant. *)
Definition at_time (now : Z) (b : Browser) : Browser :=
  mkBrowser (localStorage b) now (console b).

(** An entry of storage, a key with its text, is under the namespace. *)
Definition namespaced (e : string * string) : bool := startsWith LocalCache.PREFIX e.1.

(** Its text is empty. *)
Definition blank (e : string * string) : bool := is_empty e.2.

(** Its text parses and passes the test [now - timestamp <= ttl]. *)
Definition passes (now : Z) (e : string * string) : bool :=
  match LocalCache.fresh_try e.2 now with
  | Some true => true
  | _ => false
  end.

(** It is counted as valid: namespaced, not empty, and passing the test. *)
Definition counted_valid (now : Z) (e : string * string) : bool :=
  namespaced e && negb (blank e) && passes now e.

(** It is counted as expired: namespaced, not empty, and failing the test,
    be it by a parse error. *)
Definition counted_expired (now : Z) (e : string * string) : bool :=
  namespaced e && negb (blank e) && negb (passes now e).

(** It is counted in the total only: namespaced and empty. *)
Definition counted_blank (e : string * string) : bool :=
  namespaced e && blank e.

(** How many entries of a list satisfy [p]. *)
Definition tally (p : string * string -> bool) (entries : list (string * string)) : nat :=
  length (List.filter p entries).

End Vocabulary.

(** ** Producers and sessions used in the examples *)

Module Scenario.

(** A producer that returns 0, 1, 2, ... on successive calls, at once. *)
Definition counter : Producer nat string :=
  fun n => (Returned (JNum (Z.of_nat n)), S n, 0).

(** A producer that returns ["A"], ["B"], ... on successive calls, each call
    taking five milliseconds. *)
Definition letters : Producer nat string :=
  fun n => (Returned (JStr (String (ascii_of_nat (65 + n)) EmptyString)), S n, 5).

(** A producer that always throws. *)
Definition failing : Producer unit string :=
  fun _ => (Thrown "network down", tt, 5).

(** A fresh session: empty storage, clock at 0, producer never invoked. *)
Definition fresh {P : Type} (p : P) : Session P :=
  mkSession (mkBrowser ∅ 0 []) p 0%nat.

(** The same session at another instant. *)
Definition session_at {P : Type} (now : Z) (s : Session P) : Session P :=
  mkSession (at_time now (browser s)) (producer s) (invocations s).

End Scenario.

(** ** treasury.ts: fetchYieldCurve *)

(** The two requests of [fetchYieldWithProxy], awaited together, are taken
    from the environment and count as one invocation; the value of a yield
    is a number of the model, an integer; the constant [DEMO_YIELD_DATA] is
    a token of the answer; the calls to [logger], a module outside the
    sources at hand, are left out. *)
Module YieldCurve.

Record TreasuryYield : Type := mkYield { date : string; value : Z }.

Definition yield_json (y : TreasuryYield) : json :=
  JObj [("date", JStr (date y)); ("value", JNum (value y))].

(** The object [result] built from the two yields at the instant [now]. *)
Definition YieldCurveData (yield2Y yield10Y : TreasuryYield) (now : Z) : json :=
  let spread := value yield10Y - value yield2Y in
  JObj [("2Y", yield_json yield2Y);
        ("10Y", yield_json yield10Y);
        ("spread", JNum spread);
        ("isInverted", JBool (spread <? 0));
        ("lastUpdated", JStr (Date.toISOString now));
        ("dataSource", JStr "api")].

(** What [fetchYieldCurve] returns: the cached value, a fresh result, or
    the constant [DEMO_YIELD_DATA]. *)
Inductive Answer : Type :=
  | FromCache (cached : jsval)
  | FromApi (result : json)
  | Demo.

(** [Promise.all([fetchYieldWithProxy('DGS2'), fetchYieldWithProxy('DGS10')])]:
    each request gives a yield or [null] and never throws; the pair settles
    after some time. *)
Definition YieldSource (P : Type) : Type :=
  P -> (option TreasuryYield * option TreasuryYield) * P * Z.

(** [fetchYieldCurve()] *)
Definition fetchYieldCurve `{Platform} {P : Type} (fetchYields : YieldSource P)
    (s : Session P) : Answer * Session P :=
  let dailyKey := Treasury.dailyKey (clock (browser s)) in
  let '(cached, b) := LocalCache.get dailyKey (browser s) in
  if truthy cached then (FromCache cached, mkSession b (producer s) (invocations s))
  else
    let '(yields, p, elapsed) := fetchYields (producer s) in
    let b := later elapsed b in
    match yields with
    | (Some yield2Y, Some yield10Y) =>
      let result := YieldCurveData yield2Y yield10Y (clock b) in
      let b := LocalCache.set dailyKey result (ttl CACHE_CONFIG.TREASURY_YIELDS / 60) b in
      (FromApi result, mkSession b p (S (invocations s)))
    | _ => (Demo, mkSession b p (S (invocations s)))
    end.

End YieldCurve.

(** ** alphavantage.ts, moveIndex.ts, misc.ts: the cache keys of the callers *)

Module CallerKeys.

(** [`${CACHE_CONFIG.STOCK_QUOTES.key}${symbol}`] in [fetchStockQuote] *)
Definition stockQuoteKey (symbol : string) : string :=
  key CACHE_CONFIG.STOCK_QUOTES +:+ symbol.

(** [`${CACHE_CONFIG.EARNINGS_CALENDAR.key}_${symbol}`] in [fetchEarningsCalendar] *)
Definition earningsKey (symbol : string) : string :=
  key CACHE_CONFIG.EARNINGS_CALENDAR +:+ "_" +:+ symbol.

(** [CACHE_CONFIG.MOVE_INDEX.key] in [fetchMoveIndex] *)
Definition moveIndexKey : string := key CACHE_CONFIG.MOVE_INDEX.

(** ['polymarket_predictions'] in [fetchPolymarket] *)
Definition polymarketKey : string := "polymarket_predictions".

End CallerKeys.

(** ** The Fear & Greed classification *)

(** [getFearGreedClass] and [getFearGreedStatus] of the module with the
    history of the index. *)
Module FearGreed.

Definition getFearGreedClass (value : number) : string :=
  if le value (Finite 24) then "extreme-fear"
  else if le value (Finite 44) then "fear"
  else if le value (Finite 55) then "neutral"
  else if le value (Finite 74) then "greed"
  else "extreme-greed".

Definition getFearGreedStatus (value : number) : string :=
  if le value (Finite 24) then "Extreme Fear - Potential buying opportunity"
  else if le value (Finite 44) then "Fear - Market caution"
  else if le value (Finite 55) then "Neutral - Balanced sentiment"
  else if le value (Finite 74) then "Greed - Growing optimism"
  else "Extreme Greed - Potential overvaluation".

End FearGreed.

(** The same two functions of the module of the sentiment panel: other
    thresholds, and [undefined] ([None]) gives the empty string. *)
Module FearGreedPanel.

Definition getFearGreedClass (value : option number) : string :=
  match value with
  | None => EmptyString
  | Some value =>
    if le value (Finite 20) then "extreme-fear"
    else if le value (Finite 40) then "fear"
    else if le value (Finite 60) then "neutral"
    else if le value (Finite 80) then "greed"
    else "extreme-greed"
  end.

Definition getFearGreedStatus (value : option number) : string :=
  match value with
  | None => EmptyString
  | Some value =>
    if le value (Finite 20) then "EXTREME FEAR"
    else if le value (Finite 40) then "FEAR"
    else if le value (Finite 60) then "NEUTRAL"
    else if le value (Finite 80) then "GREED"
    else "EXTREME GREED"
  end.

End FearGreedPanel.

(** The five bands, from fear to greed, and the band a class name or a
    status text stands for. *)
Inductive Band : Type := ExtremeFear | Fear | Neutral | Greed | ExtremeGreed.

Definition band_rank (band : Band) : Z :=
  match band with
  | ExtremeFear => 0 | Fear => 1 | Neutral => 2 | Greed => 3 | ExtremeGreed => 4
  end.

Definition band_of_class (class : string) : option Band :=
  if String.eqb class "extreme-fear" then Some ExtremeFear
  else if String.eqb class "fear" then Some Fear
  else if String.eqb class "neutral" then Some Neutral
  else if String.eqb class "greed" then Some Greed
  else if String.eqb class "extreme-greed" then Some ExtremeGreed
  else None.

(** The band named at the head of a status text, in either spelling. *)
Definition band_of_status (status : string) : option Band :=
  if startsWith "Extreme Fear" status || startsWith "EXTREME FEAR" status then Some ExtremeFear
  else if startsWith "Fear" status || startsWith "FEAR" status then Some Fear
  else if startsWith "Neutral" status || startsWith "NEUTRAL" status then Some Neutral
  else if startsWith "Extreme Greed" status || startsWith "EXTREME GREED" status then Some ExtremeGreed
  else if startsWith "Greed" status || startsWith "GREED" status then Some Greed
  else None.

(** ** The news modules: hashCode and timeAgo *)

Module News.

(** The 32-bit signed integer of a number ([ToInt32]). *)
Definition ToInt32 (x : Z) : Z := (x + 2 ^ 31) mod 2 ^ 32 - 2 ^ 31.

(** [x << n] for [0 <= n < 32] *)
Definition shl (x n : Z) : Z := ToInt32 (Z.shiftl (ToInt32 x) n).

(** [x & y] *)
Definition bitand (x y : Z) : Z := Z.land (ToInt32 x) (ToInt32 y).

(** One turn of the loop of [hashCode], at the code unit [char]. *)
Definition hash_step (hash char : Z) : Z :=
  let hash := shl hash 5 - hash + char in
  bitand hash hash.

(** The value of [hash] after the loop, for the code units [str] of the
    string. *)
Definition hash_of (str : list Z) : Z := fold_left hash_step str 0.

Definition digit36 (d : Z) : ascii :=
  if d <? 10 then ascii_of_nat (48 + Z.to_nat d) else ascii_of_nat (87 + Z.to_nat d).

Fixpoint base36 (fuel : nat) (n : Z) (rest : string) : string :=
  match fuel with
  | O => rest
  | S f =>
    let rest := String (digit36 (n mod 36)) rest in
    if n <? 36 then rest else base36 f (n / 36) rest
  end.

(** [n.toString(36)] for an integer [n >= 0] *)
Definition toString36 (n : Z) : string := base36 (S (Z.to_nat (Z.log2 n))) n EmptyString.

(** [hashCode(str)] *)
Definition hashCode (str : list Z) : string := toString36 (Z.abs (hash_of str)).

(** [Math.floor(a / d)] for an integer [d > 0] *)
Definition floor_div (a : number) (d : Z) : number :=
  match a with
  | Finite x => Finite (x / d)
  | NaN => NaN
  end.

(** [a < z] *)
Definition lt (a : number) (z : Z) : bool :=
  match a with
  | Finite x => x <? z
  | NaN => false
  end.

(** [`${a}`] *)
Definition show (a : number) : string :=
  match a with
  | Finite x => Reference.decimal x
  | NaN => "NaN"
  end.

(** [timeAgo(timestamp)] at the instant [now] *)
Definition timeAgo (now : Z) (timestamp : number) : string :=
  let seconds := floor_div (minus (Finite now) timestamp) 1000 in
  if lt seconds 60 then show seconds +:+ "s ago" else
  let minutes := floor_div seconds 60 in
  if lt minutes 60 then show minutes +:+ "m ago" else
  let hours := floor_div minutes 60 in
  if lt hours 24 then show hours +:+ "h ago" else
  let days := floor_div hours 24 in
  show days +:+ "d ago".

End News.

(** ** Yield sources used in the examples *)

Module YieldScenario.

(** Both requests succeed after 200 ms. *)
Definition both : YieldCurve.YieldSource unit :=
  fun _ => ((Some (YieldCurve.mkYield "2026-10-30" 4),
             Some (YieldCurve.mkYield "2026-10-30" 5)), tt, 200).

(** The request for the two-year yield gives nothing. *)
Definition partial : YieldCurve.YieldSource unit :=
  fun _ => ((None, Some (YieldCurve.mkYield "2026-10-30" 5)), tt, 15000).

(** The result [both] leads to when it settles at [now]. *)
Definition result (now : Z) : json :=
  YieldCurve.YieldCurveData (YieldCurve.mkYield "2026-10-30" 4)
                            (YieldCurve.mkYield "2026-10-30" 5) now.

(** A fresh session at the instant [now]. *)
Definition fresh_at (now : Z) : Session unit :=
  mkSession (mkBrowser ∅ now []) tt 0%nat.

End YieldScenario.

(** * Properties *)

(** ** Strings and keys *)

Lemma startsWith_app (p k : string) : startsWith p (p +:+ k) = true.
Proof.
  induction p as [|a p IH]; simpl; [reflexivity|].
  rewrite Ascii.eqb_refl. exact IH.
Qed.

Lemma append_inj_l (p a b : string) : p +:+ a = p +:+ b -> a = b.
Proof.
  induction p as [|c p IH]; simpl; intros Heq; [assumption|].
  injection Heq as Heq. auto.
Qed.

Lemma String_inj (c c' : ascii) (s s' : string) :
  String c s = String c' s' -> c = c' /\ s = s'.
Proof. intros Heq. injection Heq as Hc Hs. auto. Qed.

(** ** LocalCache.get *)

Section Get.
Context `{Platform}.

Lemma parsed_not_empty (stored : string) (item : json) :
  JSON_parse stored = Some item -> is_empty stored = false.
Proof.
  intros Hp. destruct stored; [|reflexivity].
  rewrite JSON_parse_empty in Hp. discriminate.
Qed.


(** What [get] does on an entry of the expected shape: the payload while
    [now - timestamp <= ttl], and afterwards [null] with the entry removed. *)
Lemma get_entry (key : string) (b : Browser) (data : json) (timestamp ttl : Z) :
  holds (localStorage b) key data timestamp ttl ->
  LocalCache.get key b =
    if clock b - timestamp <=? ttl
    then (J data, log (Hit key (Finite (clock b - timestamp))) b)
    else (null, log (Expired key (Finite (clock b - timestamp)))
                  (with_storage (removeItem (LocalCache.PREFIX +:+ key)) b)).
Proof.
  intros (stored & item & Hst & Hp & Hd & Hts & Httl).
  unfold LocalCache.get, LocalCache.get_try, getItem.
  rewrite Hst, (parsed_not_empty _ _ Hp), Hp. simpl.
  rewrite Hts. simpl. rewrite Httl. simpl.
  rewrite Z.ltb_antisym.
  destruct (clock b - timestamp <=? ttl); simpl; [|reflexivity].
  rewrite Hd. reflexivity.
Qed.


End Get.

(** ** Claims on the store: reading back, expiry *)

Section Store.
Context `{Platform}.


(** C3: an entry stored at [timestamp] with time-to-live [ttl] is valid
    exactly while [now - timestamp <= ttl]: within that window [get] returns
    the payload and leaves storage alone; past it, [get] returns [null] and
    has removed the entry from storage. *)
Theorem get_valid_iff_within_ttl (key : string) (b : Browser) (data : json) (timestamp ttl : Z) :
  holds (localStorage b) key data timestamp ttl ->
  (clock b - timestamp <= ttl ->
     fst (LocalCache.get key b) = J data /\
     localStorage (snd (LocalCache.get key b)) = localStorage b) /\
  (ttl < clock b - timestamp ->
     fst (LocalCache.get key b) = null /\
     localStorage (snd (LocalCache.get key b)) !! (LocalCache.PREFIX +:+ key) = None /\
     localStorage (snd (LocalCache.get key b))
       = delete (LocalCache.PREFIX +:+ key) (localStorage b)).
Proof.
  intros Hh. rewrite (get_entry _ _ _ _ _ Hh).
  split; intros Hage.
  - apply Z.leb_le in Hage. rewrite Hage. split; reflexivity.
  - apply Z.leb_gt in Hage. rewrite Hage. simpl. unfold removeItem.
    split; [reflexivity|]. split; [apply lookup_delete_eq|reflexivity].
Qed.

End Store.

Section StoreScenarios.
#[local] Existing Instance Reference.platform.


(** [set("x", {n:1}, ttlMinutes=1)] at t=0: [get("x")] at t=30s returns
    [{n:1}]; at t=61s it returns [null] and the entry is gone. *)
Lemma get_valid_iff_within_ttl_witness :
  let v := JObj [("n", JNum 1)] in
  let b := LocalCache.set "x" v 1 (mkBrowser ∅ 0 []) in
  fst (LocalCache.get "x" (at_time 30000 b)) = J v /\
  fst (LocalCache.get "x" (at_time 61000 b)) = null /\
  localStorage (snd (LocalCache.get "x" (at_time 61000 b))) !! "sm_cache_x" = None.
Proof.
  intros v b.
  assert (Hh : forall now, holds (localStorage (at_time now b)) "x" v 0 60000).
  { intros now. exists (Reference.stringify (LocalCache.CacheItem v 0 60000)).
    exists (LocalCache.CacheItem v 0 60000).
    repeat split; vm_compute; reflexivity. }
  split.
  - apply (proj1 (get_valid_iff_within_ttl "x" (at_time 30000 b) v 0 60000 (Hh _))).
    simpl. lia.
  - pose proof (proj2 (get_valid_iff_within_ttl "x" (at_time 61000 b) v 0 60000 (Hh _))) as Hx.
    destruct Hx as (Hnull & Hgone & _); [simpl; lia|].
    split; [exact Hnull | exact Hgone].
Defined.

End StoreScenarios.

(** ** fetchWithCache *)

Section Wrapper.
Context `{Platform} {P E : Type}.
Implicit Types (fetchFn : Producer P E) (s : Session P).

(** [get] leaves storage alone, or answers [null] after removing the entry
    of its key; it never moves the clock. *)
Lemma get_storage (key : string) (b : Browser) :
  localStorage (snd (LocalCache.get key b)) = localStorage b \/
  (fst (LocalCache.get key b) = null /\
   localStorage (snd (LocalCache.get key b))
     = delete (LocalCache.PREFIX +:+ key) (localStorage b)).
Proof.
  unfold LocalCache.get, LocalCache.get_try, getItem.
  destruct (localStorage b !! (LocalCache.PREFIX +:+ key)) as [stored|]; [|left; reflexivity].
  destruct (is_empty stored); [left; reflexivity|].
  destruct (JSON_parse stored) as [item|]; simpl; [|left; reflexivity].
  destruct (member item "timestamp") as [timestamp|]; simpl; [|left; reflexivity].
  destruct (member item "ttl") as [ttl|]; simpl; [|left; reflexivity].
  destruct (gt _ _); [right; split; reflexivity|].
  destruct (member item "data"); simpl; left; reflexivity.
Qed.

Lemma get_clock (key : string) (b : Browser) :
  clock (snd (LocalCache.get key b)) = clock b.
Proof.
  unfold LocalCache.get, LocalCache.get_try, getItem.
  destruct (localStorage b !! (LocalCache.PREFIX +:+ key)) as [stored|]; [|reflexivity].
  destruct (is_empty stored); [reflexivity|].
  destruct (JSON_parse stored) as [item|]; simpl; [|reflexivity].
  destruct (member item "timestamp") as [timestamp|]; simpl; [|reflexivity].
  destruct (member item "ttl") as [ttl|]; simpl; [|reflexivity].
  destruct (gt _ _); [reflexivity|].
  destruct (member item "data"); reflexivity.
Qed.

(** A forced call. *)
Lemma fetchWithCache_forced cacheKey fetchFn ttlMinutes s :
  fetchWithCache cacheKey fetchFn ttlMinutes (Some true) s =
    let b := log (ForceRefresh cacheKey) (browser s) in
    match fetchFn (producer s) with
    | (Returned data, p, elapsed) =>
      (Returned (J data),
       mkSession (LocalCache.set cacheKey data (default 60 ttlMinutes) (later elapsed b))
                 p (S (invocations s)))
    | (Thrown e, p, elapsed) =>
      (Thrown e, mkSession (later elapsed b) p (S (invocations s)))
    end.
Proof.
  unfold fetchWithCache, mbind, Async_bind, mret, Async_ret, exec, call, await; simpl.
  destruct (fetchFn (producer s)) as [[[data|e] p] elapsed]; reflexivity.
Qed.

(** A call that is not forced and finds a truthy value. *)
Lemma fetchWithCache_hit cacheKey fetchFn ttlMinutes forceRefresh s :
  default false forceRefresh = false ->
  truthy (fst (LocalCache.get cacheKey (browser s))) = true ->
  fetchWithCache cacheKey fetchFn ttlMinutes forceRefresh s =
    (Returned (fst (LocalCache.get cacheKey (browser s))),
     mkSession (snd (LocalCache.get cacheKey (browser s))) (producer s) (invocations s)).
Proof.
  intros Hforce Hhit.
  unfold fetchWithCache, mbind, Async_bind, mret, Async_ret, exec, call, await.
  rewrite Hforce.
  destruct (LocalCache.get cacheKey (browser s)) as [cached b']; simpl in *.
  rewrite Hhit. reflexivity.
Qed.

(** A call that is not forced and finds nothing truthy. *)
Lemma fetchWithCache_miss cacheKey fetchFn ttlMinutes forceRefresh s :
  default false forceRefresh = false ->
  truthy (fst (LocalCache.get cacheKey (browser s))) = false ->
  fetchWithCache cacheKey fetchFn ttlMinutes forceRefresh s =
    let b := snd (LocalCache.get cacheKey (browser s)) in
    match fetchFn (producer s) with
    | (Returned data, p, elapsed) =>
      (Returned (J data),
       mkSession (LocalCache.set cacheKey data (default 60 ttlMinutes) (later elapsed b))
                 p (S (invocations s)))
    | (Thrown e, p, elapsed) =>
      (Thrown e, mkSession (later elapsed b) p (S (invocations s)))
    end.
Proof.
  intros Hforce Hmiss.
  unfold fetchWithCache, mbind, Async_bind, mret, Async_ret, exec, call, await.
  rewrite Hforce.
  destruct (LocalCache.get cacheKey (browser s)) as [cached b']; simpl in *.
  rewrite Hmiss. simpl.
  destruct (fetchFn (producer s)) as [[[data|e] p] elapsed]; reflexivity.
Qed.

(** X9: a valid entry with a truthy payload is served without the producer. *)
Lemma fetchWithCache_serves_truthy cacheKey fetchFn ttlMinutes forceRefresh s data timestamp ttl :
  default false forceRefresh = false ->
  holds (localStorage (browser s)) cacheKey data timestamp ttl ->
  clock (browser s) - timestamp <= ttl ->
  truthy (J data) = true ->
  fst (fetchWithCache cacheKey fetchFn ttlMinutes forceRefresh s) = Returned (J data) /\
  invocations (snd (fetchWithCache cacheKey fetchFn ttlMinutes forceRefresh s)) = invocations s /\
  producer (snd (fetchWithCache cacheKey fetchFn ttlMinutes forceRefresh s)) = producer s.
Proof.
  intros Hforce Hh Hage Ht.
  pose proof (get_entry _ _ _ _ _ Hh) as Hget.
  apply Z.leb_le in Hage. rewrite Hage in Hget.
  rewrite fetchWithCache_hit; rewrite ?Hget; auto.
Qed.


End Wrapper.

Section WrapperClaims.
Context `{Platform} {P E : Type}.
Implicit Types (fetchFn : Producer P E) (s : Session P).

(** C10: a call that is not forced and is answered from the cache (the
    lookup gave a truthy value) returns that value and leaves storage exactly
    as it was: nothing is rewritten, so an entry keeps its stored timestamp
    and ttl, and reading does not extend its lifetime.  The producer is not
    invoked and the clock is not moved. *)
Theorem cache_hit_leaves_storage_unchanged cacheKey fetchFn ttlMinutes forceRefresh s :
  default false forceRefresh = false ->
  truthy (fst (LocalCache.get cacheKey (browser s))) = true ->
  let r := fetchWithCache cacheKey fetchFn ttlMinutes forceRefresh s in
  fst r = Returned (fst (LocalCache.get cacheKey (browser s))) /\
  localStorage (browser (snd r)) = localStorage (browser s) /\
  (forall data timestamp ttl,
     holds (localStorage (browser s)) cacheKey data timestamp ttl ->
     holds (localStorage (browser (snd r))) cacheKey data timestamp ttl) /\
  clock (browser (snd r)) = clock (browser s) /\
  producer (snd r) = producer s /\
  invocations (snd r) = invocations s.
Proof.
  intros Hforce Hhit r. subst r.
  rewrite (fetchWithCache_hit _ _ _ _ _ Hforce Hhit). simpl.
  assert (Hst : localStorage (snd (LocalCache.get cacheKey (browser s)))
                = localStorage (browser s)).
  { destruct (get_storage cacheKey (browser s)) as [Hsame|[Hnull _]]; [exact Hsame|].
    rewrite Hnull in Hhit. discriminate. }
  split; [reflexivity|]. split; [exact Hst|].
  split; [intros data timestamp ttl Hh; rewrite Hst; exact Hh|].
  split; [apply get_clock|]. split; reflexivity.
Qed.

(** C4, amended: when the call reaches the producer (it is forced, or the
    lookup gave nothing truthy) and the producer throws, the error comes out
    unchanged after a single invocation, and no entry is written: storage is
    what it was before a forced call, and what the lookup left otherwise,
    that is, unchanged except that an expired entry under the key has been
    removed. *)
Theorem producer_failure_propagates cacheKey fetchFn ttlMinutes forceRefresh s e p elapsed :
  fetchFn (producer s) = (Thrown e, p, elapsed) ->
  default false forceRefresh = true \/
    truthy (fst (LocalCache.get cacheKey (browser s))) = false ->
  let r := fetchWithCache cacheKey fetchFn ttlMinutes forceRefresh s in
  fst r = Thrown e /\
  invocations (snd r) = S (invocations s) /\
  producer (snd r) = p /\
  localStorage (browser (snd r))
    = (if default false forceRefresh then localStorage (browser s)
       else localStorage (snd (LocalCache.get cacheKey (browser s)))) /\
  (localStorage (browser (snd r)) = localStorage (browser s) \/
   localStorage (browser (snd r))
     = delete (LocalCache.PREFIX +:+ cacheKey) (localStorage (browser s))) /\
  (forall k x, localStorage (browser (snd r)) !! k = Some x ->
               localStorage (browser s) !! k = Some x).
Proof.
  intros Hf Hreach r. subst r.
  assert (Hforget : forall (st st' : gmap string string),
            st' = st \/ st' = delete (LocalCache.PREFIX +:+ cacheKey) st ->
            forall k x, st' !! k = Some x -> st !! k = Some x).
  { intros st st' [->| ->] k x Hk; [exact Hk|].
    apply lookup_delete_Some in Hk. tauto. }
  destruct (default false forceRefresh) eqn:Hforce.
  - destruct forceRefresh as [[|]|]; try discriminate.
    rewrite fetchWithCache_forced, Hf. simpl.
    repeat (split; [reflexivity|]). split; [left; reflexivity|]. auto.
  - destruct Hreach as [Hx|Hmiss]; [discriminate|].
    rewrite (fetchWithCache_miss _ _ _ _ _ Hforce Hmiss), Hf. simpl.
    repeat (split; [reflexivity|]).
    assert (Hst : localStorage (snd (LocalCache.get cacheKey (browser s)))
                    = localStorage (browser s) \/
                  localStorage (snd (LocalCache.get cacheKey (browser s)))
                    = delete (LocalCache.PREFIX +:+ cacheKey) (localStorage (browser s))).
    { destruct (get_storage cacheKey (browser s)) as [Hsame|[_ Hdel]]; auto. }
    split; [exact Hst|]. apply Hforget. exact Hst.
Qed.

End WrapperClaims.

Section WrapperScenarios.
Import Scenario.
#[local] Existing Instance Reference.platform.

(** A first call caches ["A"]; a second call, one second later, is answered
    from the cache and leaves storage as it was. *)
Lemma cache_hit_leaves_storage_unchanged_witness :
  let s1 := session_at 1000 (snd (fetchWithCache "k" letters (Some 60) None (fresh 0%nat))) in
  let r := fetchWithCache "k" letters (Some 60) None s1 in
  fst r = Returned (J (JStr "A")) /\
  localStorage (browser (snd r)) = localStorage (browser s1) /\
  invocations (snd r) = 1%nat.
Proof.
  intros s1 r.
  destruct (cache_hit_leaves_storage_unchanged (P:=nat) (E:=string)
              "k" letters (Some 60) None s1) as (Hr & Hst & _ & _ & _ & Hn);
    [reflexivity | vm_compute; reflexivity |].
  split; [exact Hr|]. split; [exact Hst | exact Hn].
Defined.

(** C4 as stated fails: the key holds an entry stored at 0 for one minute,
    the call is made at 61 s and is not forced, the producer throws; the
    error propagates, but the stored state of the key is not what it was,
    the lookup has removed the expired entry. *)
Lemma producer_failure_counterexample :
  let s := mkSession (at_time 61000 (LocalCache.set "k" (JStr "A") 1 (mkBrowser ∅ 0 []))) tt 0%nat in
  let r := fetchWithCache "k" failing (Some 1) None s in
  failing (producer s) = (Thrown "network down", tt, 5) /\
  fst r = Thrown "network down" /\
  invocations (snd r) = 1%nat /\
  localStorage (browser (snd r)) !! "sm_cache_k" <> localStorage (browser s) !! "sm_cache_k".
Proof.
  intros s r. split; [reflexivity|]. split; [vm_compute; reflexivity|].
  split; [vm_compute; reflexivity|].
  intros Heq. vm_compute in Heq. discriminate Heq.
Defined.

(** The same call, by the amended statement: the error comes out and what
    remains is the storage without the expired entry. *)
Lemma producer_failure_propagates_witness :
  let s := mkSession (at_time 61000 (LocalCache.set "k" (JStr "A") 1 (mkBrowser ∅ 0 []))) tt 0%nat in
  let r := fetchWithCache "k" failing (Some 1) None s in
  fst r = Thrown "network down" /\
  invocations (snd r) = 1%nat /\
  forall k x, localStorage (browser (snd r)) !! k = Some x ->
              localStorage (browser s) !! k = Some x.
Proof.
  intros s r.
  destruct (producer_failure_propagates (P:=unit) (E:=string)
              "k" failing (Some 1) None s "network down" tt 5)
    as (Hr & Hn & _ & _ & _ & Hw);
    [reflexivity | right; vm_compute; reflexivity |].
  split; [exact Hr|]. split; [exact Hn | exact Hw].
Defined.

(** C1 (code defect): the producer returns 0 and then 1.  A first call that
    is not forced returns 0 and caches it; the entry is valid; a second call
    that is not forced, at the same instant, does not return the cached 0: it
    invokes the producer again and returns 1. *)
Theorem falsy_value_is_fetched_again :
  let r1 := fetchWithCache "k" counter (Some 60) None (fresh 0%nat) in
  let r2 := fetchWithCache "k" counter (Some 60) None (snd r1) in
  fst r1 = Returned (J (JNum 0)) /\
  holds (localStorage (browser (snd r1))) "k" (JNum 0) 0 3600000 /\
  clock (browser (snd r1)) - 0 <= 3600000 /\
  fst r2 = Returned (J (JNum 1)) /\
  invocations (snd r2) = 2%nat.
Proof.
  intros r1 r2. split; [vm_compute; reflexivity|]. split.
  - exists (Reference.stringify (LocalCache.CacheItem (JNum 0) 0 3600000)).
    exists (LocalCache.CacheItem (JNum 0) 0 3600000).
    repeat split; vm_compute; reflexivity.
  - split; [vm_compute; discriminate|]. split; vm_compute; reflexivity.
Qed.

(** C5 (code defect): a forced call whose producer returns 0 returns 0 and
    stores it; the call after it, not forced and at the same instant, does
    not return the stored 0: it invokes the producer again and returns 1. *)
Theorem forced_falsy_value_is_fetched_again :
  let r1 := fetchWithCache "k" counter (Some 60) (Some true) (fresh 0%nat) in
  let r2 := fetchWithCache "k" counter (Some 60) None (snd r1) in
  fst r1 = Returned (J (JNum 0)) /\
  invocations (snd r1) = 1%nat /\
  holds (localStorage (browser (snd r1))) "k" (JNum 0) 0 3600000 /\
  clock (browser (snd r1)) - 0 <= 3600000 /\
  fst r2 = Returned (J (JNum 1)) /\
  invocations (snd r2) = 2%nat.
Proof.
  intros r1 r2. split; [vm_compute; reflexivity|]. split; [vm_compute; reflexivity|]. split.
  - exists (Reference.stringify (LocalCache.CacheItem (JNum 0) 0 3600000)).
    exists (LocalCache.CacheItem (JNum 0) 0 3600000).
    repeat split; vm_compute; reflexivity.
  - split; [vm_compute; discriminate|]. split; vm_compute; reflexivity.
Qed.

End WrapperScenarios.

(** ** LocalCache.clearAll *)

Section ClearAll.
#[local] Arguments startsWith : simpl never.

Lemma elem_of_keys (st : gmap string string) (k : string) :
  k ∈ keys st <-> is_Some (st !! k).
Proof.
  unfold keys. rewrite list_elem_of_fmap. split.
  - intros ([k' v] & -> & Hin). apply elem_of_map_to_list in Hin. eauto.
  - intros [v Hv]. exists (k, v). split; [reflexivity|]. apply elem_of_map_to_list, Hv.
Qed.

Lemma lookup_remove_all (ks : list string) (st : gmap string string) (k : string) :
  fold_left (fun st key => removeItem key st) ks st !! k
  = if decide (k ∈ ks) then None else st !! k.
Proof.
  revert st. induction ks as [|k' ks IH]; intros st; simpl.
  - destruct (decide (k ∈ [])) as [Hin|_]; [|reflexivity]. inversion Hin.
  - rewrite IH. unfold removeItem.
    destruct (decide (k ∈ ks)) as [Hin|Hnin].
    + rewrite decide_True; [reflexivity|]. right. exact Hin.
    + destruct (decide (k = k')) as [->|Hne].
      * rewrite lookup_delete_eq. rewrite decide_True; [reflexivity|]. left.
      * rewrite lookup_delete_ne by congruence.
        rewrite decide_False; [reflexivity|].
        intros Hin. inversion Hin; subst; contradiction.
Qed.

Lemma size_remove_all (ks : list string) (st : gmap string string) :
  NoDup ks ->
  (forall k, k ∈ ks -> is_Some (st !! k)) ->
  (size (fold_left (fun st key => removeItem key st) ks st) + length ks
   = size st)%nat.
Proof.
  revert st. induction ks as [|k ks IH]; intros st Hnd Hin; simpl; [lia|].
  inversion Hnd as [|? ? Hk Hnd']; subst.
  rewrite <- Nat.add_succ_comm. unfold removeItem at 2.
  assert (Hsz : size (delete k st) = pred (size st)).
  { apply map_size_delete_Some, Hin. left. }
  assert (Hpos : (0 < size st)%nat).
  { destruct (Hin k) as [v Hv]; [left|].
    destruct (decide (size st = 0%nat)) as [Hz|]; [|lia].
    apply map_size_empty_inv in Hz. subst st. rewrite lookup_empty in Hv. discriminate. }
  specialize (IH (delete k st) Hnd').
  rewrite Hsz in IH.
  assert (Hrest : forall k0, k0 ∈ ks -> is_Some (delete k st !! k0)).
  { intros k0 Hk0. rewrite lookup_delete_ne.
    - apply Hin. right. exact Hk0.
    - intros ->. contradiction. }
  specialize (IH Hrest). lia.
Qed.

Lemma NoDup_List_filter {A : Type} (f : A -> bool) (l : list A) :
  NoDup l -> NoDup (List.filter f l).
Proof.
  induction 1 as [|x l Hx Hnd IH]; simpl; [constructor|].
  destruct (f x); [|exact IH]. constructor; [|exact IH].
  rewrite list_elem_of_In, filter_In, <- list_elem_of_In. tauto.
Qed.

Lemma elem_of_keysToRemove (st : gmap string string) (k : string) :
  k ∈ List.filter (startsWith LocalCache.PREFIX) (keys st)
  <-> is_Some (st !! k) /\ startsWith LocalCache.PREFIX k = true.
Proof.
  rewrite list_elem_of_In, filter_In, <- list_elem_of_In, elem_of_keys. tauto.
Qed.

(** C7: [clearAll()] removes exactly the entries whose keys carry the
    namespace prefix: afterwards no key with the prefix is bound, every key
    without the prefix is bound as before, and one line is logged that gives
    the number of entries removed, which is the number by which storage has
    shrunk. *)
Theorem clearAll_removes_exactly_the_namespace (b : Browser) :
  let b' := LocalCache.clearAll b in
  (forall k, startsWith LocalCache.PREFIX k = true -> localStorage b' !! k = None) /\
  (forall k, startsWith LocalCache.PREFIX k = false ->
             localStorage b' !! k = localStorage b !! k) /\
  exists n : nat,
    console b' = (console b ++ [Cleared n])%list /\
    n = tally namespaced (map_to_list (localStorage b)) /\
    (size (localStorage b') + n = size (localStorage b))%nat.
Proof.
  intros b'. subst b'. unfold LocalCache.clearAll.
  cbn [localStorage console clock log with_storage].
  split; [|split].
  - intros k Hk. rewrite lookup_remove_all.
    destruct (decide (k ∈ _)) as [_|Hnin]; [reflexivity|].
    destruct (localStorage b !! k) as [v|] eqn:Hv; [|reflexivity].
    exfalso. apply Hnin. apply elem_of_keysToRemove. eauto.
  - intros k Hk. rewrite lookup_remove_all.
    destruct (decide (k ∈ _)) as [Hin|_]; [|reflexivity].
    apply elem_of_keysToRemove in Hin. destruct Hin as [_ Hin]. congruence.
  - eexists. split; [reflexivity|]. split.
    + unfold tally, keys, namespaced.
      generalize (map_to_list (localStorage b)). intros l.
      induction l as [|[k v] l IH]; simpl; [reflexivity|].
      destruct (startsWith LocalCache.PREFIX k); simpl; [f_equal|]; exact IH.
    + apply size_remove_all.
      * apply NoDup_List_filter, NoDup_fst_map_to_list.
      * intros k Hk. apply elem_of_keysToRemove in Hk. tauto.
Qed.

End ClearAll.

(** ** LocalCache.getStats *)

Section GetStats.
Context `{Platform}.
#[local] Arguments startsWith : simpl never.

Lemma tally_cons (p : string * string -> bool) (e : string * string) (l : list (string * string)) :
  tally p (e :: l) = ((if p e then 1 else 0) + tally p l)%nat.
Proof. unfold tally. simpl. destruct (p e); reflexivity. Qed.

Lemma tally_perm (p : string * string -> bool) (l l' : list (string * string)) :
  l ≡ₚ l' -> tally p l = tally p l'.
Proof.
  induction 1 as [|e l l' _ IH|e e' l|l l' l'' _ IH1 _ IH2].
  - reflexivity.
  - rewrite !tally_cons, IH. reflexivity.
  - rewrite !tally_cons. lia.
  - congruence.
Qed.

(** The namespaced entries are the valid, the expired and the empty ones. *)
Lemma tally_partition (now : Z) (l : list (string * string)) :
  tally namespaced l
  = (tally (counted_valid now) l + tally (counted_expired now) l + tally counted_blank l)%nat.
Proof.
  induction l as [|e l IH]; [reflexivity|].
  rewrite !tally_cons, IH.
  unfold counted_valid, counted_expired, counted_blank.
  destruct (namespaced e), (blank e), (passes now e); simpl; lia.
Qed.

(** The loop of [getStats] over the keys of a list of entries of storage. *)
Lemma getStats_loop (st : gmap string string) (now : Z) (es : list (string * string)) (acc : LocalCache.Stats) :
  Forall (fun e => st !! e.1 = Some e.2) es ->
  fold_left (LocalCache.getStats_step st now) es.*1 acc
  = LocalCache.mkStats
      (LocalCache.total acc + tally namespaced es)
      (LocalCache.valid acc + tally (counted_valid now) es)
      (LocalCache.expired acc + tally (counted_expired now) es).
Proof.
  intros Hes. revert acc.
  induction Hes as [|[k stored] es Hk _ IH]; intros [t v x].
  - simpl. f_equal; unfold tally; simpl; lia.
  - cbn [fmap list_fmap fold_left fst]. rewrite IH. rewrite !tally_cons.
    unfold LocalCache.getStats_step, getItem, counted_valid, counted_expired,
      namespaced, blank, passes.
    cbn [fst snd] in *. rewrite Hk.
    destruct (startsWith LocalCache.PREFIX k); cbn [andb negb];
      [|f_equal; cbn; lia].
    destruct (is_empty stored); cbn [andb negb]; [f_equal; cbn; lia|].
    destruct (LocalCache.fresh_try stored now) as [[|]|]; f_equal; cbn; lia.
Qed.

(** [getStats] counts the entries of storage. *)
Lemma getStats_tallies (b : Browser) :
  LocalCache.getStats b
  = LocalCache.mkStats
      (tally namespaced (map_to_list (localStorage b)))
      (tally (counted_valid (clock b)) (map_to_list (localStorage b)))
      (tally (counted_expired (clock b)) (map_to_list (localStorage b))).
Proof.
  unfold LocalCache.getStats, keys. rewrite getStats_loop; [reflexivity|].
  apply Forall_forall. intros [k v] Hin. apply elem_of_map_to_list. exact Hin.
Qed.

(** On a text of the expected entry shape the test of [getStats] is
    [now - timestamp <= ttl]. *)
Lemma fresh_try_item (stored : string) (item data : json) (timestamp ttl now : Z) :
  JSON_parse stored = Some item ->
  is_item item data timestamp ttl ->
  LocalCache.fresh_try stored now = Some (now - timestamp <=? ttl).
Proof.
  intros Hp (_ & Hts & Httl). unfold LocalCache.fresh_try.
  rewrite Hp. simpl. rewrite Hts. simpl. rewrite Httl. reflexivity.
Qed.

(** The test throws on a text that does not parse or parses to [null]. *)
Lemma fresh_try_throws (stored : string) (now : Z) :
  JSON_parse stored = None \/ JSON_parse stored = Some JNull ->
  LocalCache.fresh_try stored now = None.
Proof.
  unfold LocalCache.fresh_try. intros [-> | ->]; reflexivity.
Qed.

(** [get] answers [null] and leaves storage alone on such a text. *)
Lemma get_throws (key stored : string) (b : Browser) :
  localStorage b !! (LocalCache.PREFIX +:+ key) = Some stored ->
  JSON_parse stored = None \/ JSON_parse stored = Some JNull ->
  fst (LocalCache.get key b) = null /\
  localStorage (snd (LocalCache.get key b)) = localStorage b.
Proof.
  intros Hst Hp. unfold LocalCache.get, LocalCache.get_try, getItem. rewrite Hst.
  destruct (is_empty stored); [split; reflexivity|].
  destruct Hp as [-> | ->]; split; reflexivity.
Qed.

(** C9, amended: [getStats()] returns as [total] the number of entries under
    the namespace prefix, as [valid] the number of those with a non-empty
    text that passes the test [now - timestamp <= ttl] at the time of the
    call, and as [expired] the number of those with a non-empty text that
    fails it; an entry whose text is empty is counted in [total] only, so
    that [total = valid + expired + empty] and [valid + expired <= total].
    On an entry of the expected shape the test is [now - timestamp <= ttl]
    on its stored numbers. *)
Theorem getStats_counts_the_namespace (b : Browser) :
  let entries := map_to_list (localStorage b) in
  let r := LocalCache.getStats b in
  LocalCache.total r = tally namespaced entries /\
  LocalCache.valid r = tally (counted_valid (clock b)) entries /\
  LocalCache.expired r = tally (counted_expired (clock b)) entries /\
  (LocalCache.total r
   = LocalCache.valid r + LocalCache.expired r + tally counted_blank entries)%nat /\
  (tally counted_blank entries = 0%nat ->
   LocalCache.total r = (LocalCache.valid r + LocalCache.expired r)%nat) /\
  (forall k stored item data timestamp ttl,
     JSON_parse stored = Some item ->
     is_item item data timestamp ttl ->
     passes (clock b) (k, stored) = (clock b - timestamp <=? ttl)).
Proof.
  intros entries r. subst entries r. rewrite getStats_tallies. cbn [LocalCache.total LocalCache.valid LocalCache.expired].
  split; [reflexivity|]. split; [reflexivity|]. split; [reflexivity|].
  split; [apply tally_partition|].
  split; [intros Hz; rewrite (tally_partition (clock b)), Hz; lia|].
  intros k stored item data timestamp ttl Hp Hi. unfold passes. cbn [snd].
  rewrite (fresh_try_item _ _ _ _ _ _ Hp Hi).
  destruct (clock b - timestamp <=? ttl); reflexivity.
Qed.

(** C6, amended: a record under a namespaced key whose text does not parse
    as JSON, or parses to [null], makes [get] answer [null] without throwing
    (the record stays in storage), and [getStats] never counts it as valid:
    it adds one to [total], nothing to [valid], and one to [expired] unless
    the text is empty, in which case it adds nothing to [expired] either. *)
Theorem unreadable_record_is_absent_and_not_valid (key stored : string) (b : Browser) :
  localStorage b !! (LocalCache.PREFIX +:+ key) = Some stored ->
  JSON_parse stored = None \/ JSON_parse stored = Some JNull ->
  fst (LocalCache.get key b) = null /\
  localStorage (snd (LocalCache.get key b)) = localStorage b /\
  let r := LocalCache.getStats b in
  let r0 := LocalCache.getStats (LocalCache.remove key b) in
  LocalCache.total r = S (LocalCache.total r0) /\
  LocalCache.valid r = LocalCache.valid r0 /\
  LocalCache.expired r
    = (LocalCache.expired r0 + (if is_empty stored then 0 else 1))%nat.
Proof.
  intros Hst Hp.
  destruct (get_throws key stored b Hst Hp) as [Hnull Hsame].
  split; [exact Hnull|]. split; [exact Hsame|].
  intros r r0. subst r r0. rewrite !getStats_tallies.
  cbn [LocalCache.total LocalCache.valid LocalCache.expired
       LocalCache.remove with_storage localStorage clock].
  unfold removeItem.
  pose proof (map_to_list_delete _ _ _ Hst) as Hperm.
  rewrite <- !(tally_perm _ _ _ Hperm), !tally_cons.
  unfold counted_valid, counted_expired, namespaced, blank, passes. cbn [fst snd].
  rewrite startsWith_app, (fresh_try_throws _ _ Hp).
  destruct (is_empty stored); cbn; repeat split; lia.
Qed.

End GetStats.

Section StorageScenarios.
#[local] Existing Instance Reference.platform.

(** Two cache entries and a foreign one: [clearAll] removes the two, keeps
    the third and logs the count 2. *)
Lemma clearAll_removes_exactly_the_namespace_witness :
  let st : gmap string string :=
    <["sm_cache_a" := "1"]> (<["sm_cache_b" := "2"]> (<["theme" := "dark"]> ∅)) in
  let b' := LocalCache.clearAll (mkBrowser st 0 []) in
  localStorage b' !! "sm_cache_a" = None /\
  localStorage b' !! "sm_cache_b" = None /\
  localStorage b' !! "theme" = st !! "theme".
Proof.
  intros st b'.
  destruct (clearAll_removes_exactly_the_namespace (mkBrowser st 0 [])) as (Hin & Hout & _).
  split; [apply Hin; reflexivity|].
  split; [apply Hin; reflexivity | apply Hout; reflexivity].
Defined.

(** C9 as stated fails: with the empty text under a namespaced key,
    [getStats()] returns [total = 1], [valid = 0] and [expired = 0]. *)
Lemma getStats_counterexample :
  let b := mkBrowser {[ "sm_cache_x" := EmptyString ]} 0 [] in
  let r := LocalCache.getStats b in
  LocalCache.total r = 1%nat /\ LocalCache.valid r = 0%nat /\ LocalCache.expired r = 0%nat /\
  LocalCache.total r <> (LocalCache.valid r + LocalCache.expired r)%nat.
Proof.
  intros b r. repeat split; try (vm_compute; reflexivity).
  vm_compute. discriminate.
Defined.

(** A valid entry, an expired one, a text that does not parse and a foreign
    entry, none of them empty: total = valid + expired. *)
Lemma getStats_counts_the_namespace_witness :
  let fresh_text := JSON_stringify (LocalCache.CacheItem (JStr "A") 0 60000) in
  let stale_text := JSON_stringify (LocalCache.CacheItem (JStr "B") 0 500) in
  let st : gmap string string :=
    <["sm_cache_a" := fresh_text]> (<["sm_cache_b" := stale_text]>
      (<["sm_cache_c" := "oops"]> (<["theme" := "dark"]> ∅))) in
  let r := LocalCache.getStats (mkBrowser st 1000 []) in
  LocalCache.total r = (LocalCache.valid r + LocalCache.expired r)%nat.
Proof.
  intros fresh_text stale_text st r.
  destruct (getStats_counts_the_namespace (mkBrowser st 1000 [])) as (_ & _ & _ & _ & Hsum & _).
  apply Hsum. vm_compute. reflexivity.
Defined.

(** C6 as stated fails: the text [{"data":1}] parses but has not the shape
    of an entry (no [timestamp], no [ttl]); [get] returns its [data], 1,
    instead of [null]. *)
Lemma malformed_record_counterexample :
  let stored := JSON_stringify (JObj [("data", JNum 1)]) in
  let b := mkBrowser {[ "sm_cache_x" := stored ]} 0 [] in
  localStorage b !! (LocalCache.PREFIX +:+ "x") = Some stored /\
  ~ expected_shape stored /\
  fst (LocalCache.get "x" b) = J (JNum 1) /\
  fst (LocalCache.get "x" b) <> null.
Proof.
  intros stored b. split; [vm_compute; reflexivity|]. split.
  - intros (item & data & timestamp & ttl & Hp & _ & Hts & _).
    vm_compute in Hp. injection Hp as <-. vm_compute in Hts. discriminate Hts.
  - split; [vm_compute; reflexivity|]. vm_compute. discriminate.
Defined.

(** A text that is not JSON under a namespaced key: [get] answers [null]
    and [getStats] counts the record as expired. *)
Lemma unreadable_record_is_absent_and_not_valid_witness :
  let b := mkBrowser {[ "sm_cache_x" := "oops" ]} 0 [] in
  fst (LocalCache.get "x" b) = null /\
  LocalCache.valid (LocalCache.getStats b)
    = LocalCache.valid (LocalCache.getStats (LocalCache.remove "x" b)) /\
  LocalCache.expired (LocalCache.getStats b)
    = S (LocalCache.expired (LocalCache.getStats (LocalCache.remove "x" b))).
Proof.
  intros b.
  destruct (unreadable_record_is_absent_and_not_valid "x" "oops" b)
    as (Hnull & _ & _ & Hv & Hx);
    [vm_compute; reflexivity | left; vm_compute; reflexivity |].
  split; [exact Hnull|]. split; [exact Hv|].
  rewrite Hx. simpl. lia.
Defined.

End StorageScenarios.

(** ** The calendar *)

(** Linear arithmetic with division and remainder by constants. *)
Ltac euclid := Z.div_mod_to_equations; lia.

Section Calendar.
Import Date.

(** [YearFromDay] is the largest year that starts on or before the day. *)
Lemma YearFromDay_correct (day : Z) :
  DayFromYear (YearFromDay day) <= day < DayFromYear (YearFromDay day + 1).
Proof.
  unfold YearFromDay. cbv zeta.
  destruct (Z.ltb_spec day (DayFromYear (1970 + 400 * day / 146097))) as [Hlo|Hlo].
  - unfold DayFromYear in *. euclid.
  - destruct (Z.leb_spec (DayFromYear (1970 + 400 * day / 146097 + 1)) day) as [Hhi|Hhi];
      unfold DayFromYear in *; euclid.
Qed.

Lemma DayFromYear_succ (y : Z) : DayFromYear (y + 1) = DayFromYear y + DaysInYear y.
Proof.
  unfold DayFromYear, DaysInYear, leap.
  destruct (Z.eqb_spec (y mod 4) 0), (Z.eqb_spec (y mod 100) 0),
    (Z.eqb_spec (y mod 400) 0); cbn [andb orb negb]; euclid.
Qed.

Lemma DayWithinYear_range (t : Z) :
  0 <= DayWithinYear t < 365 + InLeapYear t.
Proof.
  unfold DayWithinYear, InLeapYear, YearFromTime.
  pose proof (YearFromDay_correct (Day t)) as Hy.
  rewrite DayFromYear_succ in Hy. unfold DaysInYear in Hy.
  destruct (leap (YearFromDay (Day t))); lia.
Qed.

Lemma InLeapYear_range (t : Z) : InLeapYear t = 0 \/ InLeapYear t = 1.
Proof. unfold InLeapYear. destruct (leap _); auto. Qed.

Lemma MonthFromTime_range (t : Z) : 0 <= MonthFromTime t <= 11.
Proof.
  unfold MonthFromTime. cbv zeta.
  repeat match goal with
         | |- context [if ?a <? ?b then _ else _] => destruct (a <? b)
         end; lia.
Qed.

Lemma DateFromTime_range (t : Z) : 1 <= DateFromTime t <= 31.
Proof.
  pose proof (DayWithinYear_range t) as Hd.
  destruct (InLeapYear_range t) as [Hl|Hl].
  all: unfold DateFromTime, MonthFromTime; cbv zeta; rewrite Hl in *.
  all: repeat match goal with
         | |- context [if ?a <? ?b then _ else _] => destruct (Z.ltb_spec a b)
         end; cbn [month_start]; lia.
Qed.

Lemma YearFromTime_range (t : Z) :
  valid t -> -1000000 < YearFromTime t < 1000000.
Proof.
  unfold valid, YearFromTime, YearFromDay, Day, msPerDay. cbv zeta. intros Ht.
  repeat match goal with
         | |- context [if ?c then _ else _] => destruct c
         end; euclid.
Qed.

(** The year, the month and the day of the month determine the day. *)
Lemma Day_from_date (t : Z) :
  Day t = DayFromYear (YearFromTime t)
          + month_start (MonthFromTime t) (if leap (YearFromTime t) then 1 else 0)
          + DateFromTime t - 1.
Proof. unfold DateFromTime, DayWithinYear, InLeapYear. lia. Qed.

Lemma same_date_same_day (t1 t2 : Z) :
  YearFromTime t1 = YearFromTime t2 ->
  MonthFromTime t1 = MonthFromTime t2 ->
  DateFromTime t1 = DateFromTime t2 ->
  Day t1 = Day t2.
Proof.
  intros Hy Hm Hd. rewrite (Day_from_date t1), (Day_from_date t2), Hy, Hm, Hd.
  reflexivity.
Qed.

End Calendar.

(** ** The text of a date *)

Section DateText.
Import Date.

Lemma nat_of_digit (d : Z) :
  0 <= d < 10 -> nat_of_ascii (digit d) = (48 + Z.to_nat d)%nat.
Proof. intros Hd. unfold digit. apply nat_ascii_embedding. lia. Qed.

Lemma digit_inj (a b : Z) :
  0 <= a < 10 -> 0 <= b < 10 -> digit a = digit b -> a = b.
Proof.
  intros Ha Hb Heq. apply (f_equal nat_of_ascii) in Heq.
  rewrite !nat_of_digit in Heq by assumption. lia.
Qed.

(** A digit is none of the characters [T], [+] and [-]. *)
Lemma digit_not_mark (d : Z) (c : ascii) :
  0 <= d < 10 -> c = "T"%char \/ c = "+"%char \/ c = "-"%char -> digit d <> c.
Proof.
  intros Hd Hc Heq. apply (f_equal nat_of_ascii) in Heq.
  rewrite nat_of_digit in Heq by assumption.
  assert (HT : nat_of_ascii "T" = 84%nat) by reflexivity.
  assert (Hplus : nat_of_ascii "+" = 43%nat) by reflexivity.
  assert (Hminus : nat_of_ascii "-" = 45%nat) by reflexivity.
  destruct Hc as [-> | [-> | ->]]; lia.
Qed.

Lemma digits_inj (w : nat) (n m : Z) (r r' : string) :
  0 <= n < 10 ^ Z.of_nat w -> 0 <= m < 10 ^ Z.of_nat w ->
  digits w n r = digits w m r' -> n = m /\ r = r'.
Proof.
  revert n m r r'. induction w as [|w IH]; intros n m r r' Hn Hm Heq.
  - simpl in *. split; [lia | exact Heq].
  - rewrite Nat2Z.inj_succ, Z.pow_succ_r in Hn, Hm by lia.
    cbn [digits] in Heq. apply IH in Heq; [|euclid|euclid].
    destruct Heq as [Hdiv Hstr]. apply String_inj in Hstr as [Hd Hr].
    apply digit_inj in Hd; [|apply Z.mod_pos_bound; lia..].
    split; [|exact Hr].
    rewrite (Z.div_mod n 10), (Z.div_mod m 10) by lia. congruence.
Qed.

Lemma digits_head (w : nat) (n : Z) (r : string) :
  exists d rest, 0 <= d < 10 /\ digits (S w) n r = String (digit d) rest.
Proof.
  revert n r. induction w as [|w IH]; intros n r.
  - exists (n mod 10), r. split; [apply Z.mod_pos_bound; lia | reflexivity].
  - destruct (IH (n / 10) (String (digit (n mod 10)) r)) as (d & rest & Hd & Heq).
    exists d, rest. split; [exact Hd|]. exact Heq.
Qed.

Lemma split_first_cons (c sep : ascii) (s : string) :
  c <> sep -> split_first sep (String c s) = String c (split_first sep s).
Proof.
  intros Hne. cbn [split_first].
  destruct (Ascii.eqb_spec c sep); [contradiction | reflexivity].
Qed.

Lemma split_first_digits (w : nat) (n : Z) (r : string) :
  split_first "T" (digits w n r) = digits w n (split_first "T" r).
Proof.
  revert n r. induction w as [|w IH]; intros n r; [reflexivity|].
  cbn [digits]. rewrite IH. f_equal. apply split_first_cons.
  apply digit_not_mark; [apply Z.mod_pos_bound; lia | auto].
Qed.

Lemma split_first_year_digits (y : Z) (r : string) :
  split_first "T" (year_digits y r) = year_digits y (split_first "T" r).
Proof.
  unfold year_digits. destruct ((0 <=? y) && (y <=? 9999)).
  - apply split_first_digits.
  - destruct (y <? 0); rewrite split_first_cons by discriminate;
      rewrite split_first_digits; reflexivity.
Qed.

Lemma year_digits_inj (y y' : Z) (r r' : string) :
  -1000000 < y < 1000000 -> -1000000 < y' < 1000000 ->
  year_digits y r = year_digits y' r' -> y = y' /\ r = r'.
Proof.
  intros Hy Hy'. unfold year_digits.
  assert (Hmixed : forall a b rest rest' (sign : ascii),
            sign = "-"%char \/ sign = "+"%char ->
            digits 4 a rest = String sign (digits 6 b rest') -> False).
  { intros a b rest rest' sign Hsign Heq.
    destruct (digits_head 3 a rest) as (d & tail & Hd & Hhead).
    rewrite Hhead in Heq. apply String_inj in Heq as [Hc _].
    revert Hc. apply digit_not_mark; [exact Hd | tauto]. }
  destruct ((0 <=? y) && (y <=? 9999)) eqn:Hc, ((0 <=? y') && (y' <=? 9999)) eqn:Hc'.
  - intros Heq. apply (digits_inj 4) in Heq; [exact Heq|..];
      change (10 ^ Z.of_nat 4) with 10000; lia.
  - intros Heq. exfalso. apply Hmixed in Heq; [exact Heq|].
    destruct (y' <? 0); auto.
  - intros Heq. exfalso. symmetry in Heq. apply Hmixed in Heq; [exact Heq|].
    destruct (y <? 0); auto.
  - intros Heq. apply String_inj in Heq as [Hsign Heq].
    apply (digits_inj 6) in Heq; [|change (10 ^ Z.of_nat 6) with 1000000; lia..].
    destruct Heq as [Habs Hr]. split; [|exact Hr].
    destruct (Z.ltb_spec y 0), (Z.ltb_spec y' 0); try discriminate Hsign; lia.
Qed.

(** The text [YYYY-MM-DD] that [fetchYieldCurve] puts in its key. *)
Lemma today_text (t : Z) :
  Treasury.today t
  = year_digits (YearFromTime t)
      (String "-" (digits 2 (MonthFromTime t + 1)
        (String "-" (digits 2 (DateFromTime t) EmptyString)))).
Proof.
  unfold Treasury.today, toISOString. cbv zeta.
  rewrite split_first_year_digits. f_equal.
  rewrite split_first_cons by discriminate. f_equal.
  rewrite split_first_digits. f_equal.
  rewrite split_first_cons by discriminate. f_equal.
  rewrite split_first_digits. reflexivity.
Qed.

(** Two instants with the same date text are on the same day. *)
Lemma today_inj (t1 t2 : Z) :
  valid t1 -> valid t2 -> Treasury.today t1 = Treasury.today t2 -> Day t1 = Day t2.
Proof.
  intros Hv1 Hv2. rewrite !today_text. intros Heq.
  apply year_digits_inj in Heq; [|apply YearFromTime_range; assumption..].
  destruct Heq as [Hy Heq]. apply String_inj in Heq as [_ Heq].
  pose proof (MonthFromTime_range t1). pose proof (MonthFromTime_range t2).
  pose proof (DateFromTime_range t1). pose proof (DateFromTime_range t2).
  apply (digits_inj 2) in Heq; [|change (10 ^ Z.of_nat 2) with 100; lia..].
  destruct Heq as [Hm Heq]. apply String_inj in Heq as [_ Heq].
  apply (digits_inj 2) in Heq; [|change (10 ^ Z.of_nat 2) with 100; lia..].
  destruct Heq as [Hd _].
  apply same_date_same_day; [exact Hy | lia | exact Hd].
Qed.

(** C8: the key under which [fetchYieldCurve] caches the curve ends with the
    calendar date (UTC) of the call, so two calls on different calendar days
    compute different keys, however close in time they are: a day boundary
    invalidates the entry independently of its TTL. *)
Theorem dailyKey_differs_across_days (t1 t2 : Z) :
  valid t1 -> valid t2 ->
  Day t1 <> Day t2 ->
  Treasury.dailyKey t1 <> Treasury.dailyKey t2.
Proof.
  intros Hv1 Hv2 Hday Hkey. apply Hday.
  unfold Treasury.dailyKey in Hkey.
  apply append_inj_l, append_inj_l in Hkey.
  apply today_inj; assumption.
Qed.

End DateText.

(** One millisecond before midnight and midnight, 2 November 2026 (UTC):
    the keys differ although the TTL of the entry, one minute, has not
    elapsed. *)
Lemma dailyKey_differs_across_days_witness :
  let t1 := 1793663999999 in
  let t2 := 1793664000000 in
  t2 - t1 < ttl CACHE_CONFIG.TREASURY_YIELDS / 60 * 60 * 1000 /\
  Treasury.dailyKey t1 = "treasury_yields_daily_2026-11-02" /\
  Treasury.dailyKey t2 = "treasury_yields_daily_2026-11-03" /\
  Treasury.dailyKey t1 <> Treasury.dailyKey t2.
Proof.
  intros t1 t2. split; [vm_compute; reflexivity|].
  split; [vm_compute; reflexivity|]. split; [vm_compute; reflexivity|].
  apply dailyKey_differs_across_days.
  - unfold Date.valid, t1. lia.
  - unfold Date.valid, t2. lia.
  - vm_compute. discriminate.
Defined.

(** * Further properties of the store *)

Section StoreFrame.
Context `{Platform}.

Lemma cache_key_inj (k k' : string) :
  LocalCache.PREFIX +:+ k = LocalCache.PREFIX +:+ k' -> k = k'.
Proof. apply append_inj_l. Qed.

(** The value [get] returns depends on the binding of its own key and on
    the clock only. *)
Lemma get_ext (key : string) (b1 b2 : Browser) :
  localStorage b1 !! (LocalCache.PREFIX +:+ key)
    = localStorage b2 !! (LocalCache.PREFIX +:+ key) ->
  clock b1 = clock b2 ->
  fst (LocalCache.get key b1) = fst (LocalCache.get key b2).
Proof.
  intros Hst Hclock. unfold LocalCache.get, LocalCache.get_try, getItem.
  rewrite Hst, Hclock.
  destruct (localStorage b2 !! (LocalCache.PREFIX +:+ key)) as [stored|]; [|reflexivity].
  destruct (is_empty stored); [reflexivity|].
  destruct (JSON_parse stored) as [item|]; [|reflexivity]. cbn [mbind option_bind].
  destruct (member item "timestamp") as [timestamp|]; [|reflexivity]. cbn [mbind option_bind].
  destruct (member item "ttl") as [ttl|]; [|reflexivity]. cbn [mbind option_bind].
  destruct (gt _ _); [reflexivity|].
  destruct (member item "data"); reflexivity.
Qed.

(** [get] on a key that is not bound. *)
Lemma get_unbound (key : string) (b : Browser) :
  localStorage b !! (LocalCache.PREFIX +:+ key) = None ->
  LocalCache.get key b = (null, b).
Proof.
  intros Hst. unfold LocalCache.get, LocalCache.get_try, getItem. rewrite Hst. reflexivity.
Qed.

(** X1: [remove(key)] deletes the entry of the key and nothing else; a
    missing key is no error and leaves storage as it is; [get(key)] after it
    answers [null]. *)
Theorem remove_deletes_only_its_key (key : string) (b : Browser) :
  LocalCache.get key (LocalCache.remove key b) = (null, LocalCache.remove key b) /\
  (forall k, k <> LocalCache.PREFIX +:+ key ->
             localStorage (LocalCache.remove key b) !! k = localStorage b !! k) /\
  (localStorage b !! (LocalCache.PREFIX +:+ key) = None ->
   localStorage (LocalCache.remove key b) = localStorage b) /\
  LocalCache.remove key (LocalCache.remove key b) = LocalCache.remove key b.
Proof.
  unfold LocalCache.remove, with_storage, removeItem. cbn [localStorage clock console].
  split; [|split; [|split]].
  - apply get_unbound. cbn [localStorage]. apply lookup_delete_eq.
  - intros k Hk. apply lookup_delete_ne. congruence.
  - intros Hnone. apply delete_id. exact Hnone.
  - f_equal. apply delete_id, lookup_delete_eq.
Qed.


(** X3: the operations on one cache key leave every other binding of
    storage alone, be it another cache key or a foreign entry; so what [get]
    returns for one key is not changed by [set], [remove] or [get] on
    another. *)
Theorem other_keys_are_untouched (key : string) (data : json) (ttlMinutes : Z) (b : Browser) :
  (forall k, k <> LocalCache.PREFIX +:+ key ->
     localStorage (LocalCache.set key data ttlMinutes b) !! k = localStorage b !! k /\
     localStorage (LocalCache.remove key b) !! k = localStorage b !! k /\
     localStorage (snd (LocalCache.get key b)) !! k = localStorage b !! k) /\
  (forall key', key' <> key ->
     fst (LocalCache.get key' (LocalCache.set key data ttlMinutes b))
       = fst (LocalCache.get key' b) /\
     fst (LocalCache.get key' (LocalCache.remove key b)) = fst (LocalCache.get key' b) /\
     fst (LocalCache.get key' (snd (LocalCache.get key b))) = fst (LocalCache.get key' b)).
Proof.
  assert (Hframe : forall k, k <> LocalCache.PREFIX +:+ key ->
     localStorage (LocalCache.set key data ttlMinutes b) !! k = localStorage b !! k /\
     localStorage (LocalCache.remove key b) !! k = localStorage b !! k /\
     localStorage (snd (LocalCache.get key b)) !! k = localStorage b !! k).
  { intros k Hk. split; [|split].
    - unfold LocalCache.set, with_storage, log, setItem. cbn [localStorage].
      apply lookup_insert_ne. congruence.
    - unfold LocalCache.remove, with_storage, removeItem. cbn [localStorage].
      apply lookup_delete_ne. congruence.
    - destruct (get_storage key b) as [-> | [_ ->]]; [reflexivity|].
      apply lookup_delete_ne. congruence. }
  split; [exact Hframe|].
  intros key' Hne.
  assert (Hk : LocalCache.PREFIX +:+ key' <> LocalCache.PREFIX +:+ key).
  { intros Heq. apply Hne, cache_key_inj, Heq. }
  destruct (Hframe _ Hk) as (Hset & Hrem & Hget).
  split; [|split]; apply get_ext; try assumption; try reflexivity.
  apply get_clock.
Qed.

End StoreFrame.

Section StoreReads.
Context `{Platform}.
#[local] Arguments startsWith : simpl never.

(** Whether [get] removes the entry depends on the binding of its key and
    on the clock only. *)
Lemma get_storage_ext (key : string) (b1 b2 : Browser) :
  localStorage b1 !! (LocalCache.PREFIX +:+ key)
    = localStorage b2 !! (LocalCache.PREFIX +:+ key) ->
  clock b1 = clock b2 ->
  (localStorage (snd (LocalCache.get key b1)) = localStorage b1 /\
   localStorage (snd (LocalCache.get key b2)) = localStorage b2) \/
  (localStorage (snd (LocalCache.get key b1))
     = delete (LocalCache.PREFIX +:+ key) (localStorage b1) /\
   localStorage (snd (LocalCache.get key b2))
     = delete (LocalCache.PREFIX +:+ key) (localStorage b2)).
Proof.
  intros Hst Hclock. unfold LocalCache.get, LocalCache.get_try, getItem.
  rewrite Hst, Hclock.
  destruct (localStorage b2 !! (LocalCache.PREFIX +:+ key)) as [stored|]; [|left; split; reflexivity].
  destruct (is_empty stored); [left; split; reflexivity|].
  destruct (JSON_parse stored) as [item|]; [|left; split; reflexivity]. cbn [mbind option_bind].
  destruct (member item "timestamp") as [timestamp|]; [|left; split; reflexivity].
  cbn [mbind option_bind].
  destruct (member item "ttl") as [ttl|]; [|left; split; reflexivity]. cbn [mbind option_bind].
  destruct (gt _ _); [right; split; reflexivity|].
  destruct (member item "data"); left; split; reflexivity.
Qed.

(** X4: reading is idempotent: a second [get] of the same key at the same
    instant returns what the first returned and changes storage no further
    (an expired entry is removed by the first read and stays removed). *)
Theorem get_is_idempotent (key : string) (b : Browser) :
  let b1 := snd (LocalCache.get key b) in
  fst (LocalCache.get key b1) = fst (LocalCache.get key b) /\
  localStorage (snd (LocalCache.get key b1)) = localStorage b1.
Proof.
  intros b1. subst b1.
  destruct (get_storage key b) as [Hsame | [Hnull Hdel]].
  - assert (Hlook : localStorage b !! (LocalCache.PREFIX +:+ key)
                    = localStorage (snd (LocalCache.get key b)) !! (LocalCache.PREFIX +:+ key))
      by (rewrite Hsame; reflexivity).
    split; [symmetry; apply get_ext; [exact Hlook | symmetry; apply get_clock]|].
    destruct (get_storage_ext key b (snd (LocalCache.get key b)) Hlook
                (eq_sym (get_clock key b))) as [[_ Hs] | [Hd1 Hd2]]; [exact Hs|].
    rewrite Hd2, Hd1. apply delete_delete_eq.
  - rewrite get_unbound; [|rewrite Hdel; apply lookup_delete_eq].
    split; [symmetry; exact Hnull | reflexivity].
Qed.

(** X5: on an entry of the expected shape [isValid] answers whether the
    entry is within its time-to-live, except that an entry whose payload is
    [null] is reported invalid; a key that is not bound is invalid.
    [isValid] has the effect of [get] on storage: it removes an expired
    entry. *)
Theorem isValid_of_entry (key : string) (b : Browser) :
  snd (LocalCache.isValid key b) = snd (LocalCache.get key b) /\
  (localStorage b !! (LocalCache.PREFIX +:+ key) = None ->
   fst (LocalCache.isValid key b) = false) /\
  (forall data timestamp ttl,
     holds (localStorage b) key data timestamp ttl ->
     fst (LocalCache.isValid key b)
       = (clock b - timestamp <=? ttl) && negb (match data with JNull => true | _ => false end)).
Proof.
  unfold LocalCache.isValid. split; [|split].
  - destruct (LocalCache.get key b); reflexivity.
  - intros Hnone. rewrite (get_unbound _ _ Hnone). reflexivity.
  - intros data timestamp ttl Hh. rewrite (get_entry _ _ _ _ _ Hh).
    destruct (clock b - timestamp <=? ttl); [|reflexivity].
    destruct data; reflexivity.
Qed.

(** The entries counted under the namespace when one binding is set aside. *)
Lemma tally_binding (p : string * string -> bool) (st : gmap string string) (k stored : string) :
  st !! k = Some stored ->
  tally p (map_to_list st)
  = ((if p (k, stored) then 1 else 0) + tally p (map_to_list (delete k st)))%nat.
Proof.
  intros Hst. rewrite <- tally_cons. apply tally_perm. symmetry.
  apply map_to_list_delete, Hst.
Qed.

(** X6: once the time-to-live of an entry has elapsed, [get] answers [null]
    and the statistics taken afterwards no longer count the entry: against
    the statistics taken before the read, [total] and [expired] are one
    less and [valid] is the same. *)
Theorem expired_entry_leaves_the_statistics (key : string) (b : Browser)
    (data : json) (timestamp ttl : Z) :
  holds (localStorage b) key data timestamp ttl ->
  ttl < clock b - timestamp ->
  let b' := snd (LocalCache.get key b) in
  fst (LocalCache.get key b) = null /\
  LocalCache.total (LocalCache.getStats b) = S (LocalCache.total (LocalCache.getStats b')) /\
  LocalCache.valid (LocalCache.getStats b) = LocalCache.valid (LocalCache.getStats b') /\
  LocalCache.expired (LocalCache.getStats b) = S (LocalCache.expired (LocalCache.getStats b')).
Proof.
  intros Hh Hage b'. subst b'.
  rewrite (get_entry _ _ _ _ _ Hh).
  apply Z.leb_gt in Hage. rewrite Hage. cbn [fst snd].
  split; [reflexivity|].
  destruct Hh as (stored & item & Hst & Hp & Hi).
  rewrite !getStats_tallies.
  cbn [LocalCache.total LocalCache.valid LocalCache.expired
       with_storage log localStorage clock].
  unfold removeItem.
  rewrite !(tally_binding _ _ _ _ Hst).
  unfold counted_valid, counted_expired, namespaced, blank, passes. cbn [fst snd].
  rewrite startsWith_app, (parsed_not_empty _ _ Hp), (fresh_try_item _ _ _ _ _ _ Hp Hi), Hage.
  cbn. repeat split; lia.
Qed.


End StoreReads.

Section ClearAllThen.
Context `{Platform}.
#[local] Arguments startsWith : simpl never.

Lemma clearAll_lookup (b : Browser) (k : string) :
  localStorage (LocalCache.clearAll b) !! k
  = if startsWith LocalCache.PREFIX k then None else localStorage b !! k.
Proof.
  unfold LocalCache.clearAll. cbn [localStorage console clock log with_storage].
  rewrite lookup_remove_all.
  destruct (decide (k ∈ _)) as [Hin|Hnin].
  - apply elem_of_keysToRemove in Hin. destruct Hin as [_ ->]. reflexivity.
  - destruct (startsWith LocalCache.PREFIX k) eqn:Hk; [|reflexivity].
    destruct (localStorage b !! k) as [v|] eqn:Hv; [|reflexivity].
    exfalso. apply Hnin, elem_of_keysToRemove. eauto.
Qed.

Lemma length_keysToRemove (st : gmap string string) :
  length (List.filter (startsWith LocalCache.PREFIX) (keys st))
  = tally namespaced (map_to_list st).
Proof.
  unfold tally, keys, namespaced. generalize (map_to_list st). intros l.
  induction l as [|[k v] l IH]; simpl; [reflexivity|].
  destruct (startsWith LocalCache.PREFIX k); simpl; [f_equal|]; exact IH.
Qed.

Lemma tally_none (p : string * string -> bool) (l : list (string * string)) :
  (forall e, e ∈ l -> p e = false) -> tally p l = 0%nat.
Proof.
  induction l as [|e l IH]; intros Hp; [reflexivity|].
  rewrite tally_cons, (Hp e) by left. apply IH. intros e' He'. apply Hp. right. exact He'.
Qed.

(** After [clearAll] no entry of storage is namespaced. *)
Lemma clearAll_no_namespaced (b : Browser) (e : string * string) :
  e ∈ map_to_list (localStorage (LocalCache.clearAll b)) -> namespaced e = false.
Proof.
  destruct e as [k v]. intros Hin. apply elem_of_map_to_list in Hin.
  rewrite clearAll_lookup in Hin. unfold namespaced. cbn [fst].
  destruct (startsWith LocalCache.PREFIX k); [discriminate|reflexivity].
Qed.

(** X7: after [clearAll()] the cache is empty: the statistics are all zero,
    [get] answers [null] for every key without touching storage, and a
    second [clearAll()] removes nothing and logs the count 0. *)
Theorem clearAll_empties_the_cache (b : Browser) :
  let b' := LocalCache.clearAll b in
  LocalCache.getStats b' = LocalCache.mkStats 0 0 0 /\
  (forall key, LocalCache.get key b' = (null, b')) /\
  localStorage (LocalCache.clearAll b') = localStorage b' /\
  console (LocalCache.clearAll b') = (console b' ++ [Cleared 0])%list.
Proof.
  intros b'. subst b'.
  assert (Hzero : forall p : string * string -> bool,
            (forall e, p e = true -> namespaced e = true) ->
            tally p (map_to_list (localStorage (LocalCache.clearAll b))) = 0%nat).
  { intros p Hp. apply tally_none. intros e He.
    destruct (p e) eqn:Hpe; [|reflexivity].
    apply Hp in Hpe. rewrite (clearAll_no_namespaced b e He) in Hpe. discriminate. }
  split; [|split; [|split]].
  - rewrite getStats_tallies. f_equal; apply Hzero; intros e He.
    + exact He.
    + unfold counted_valid in He. destruct (namespaced e); [reflexivity | discriminate].
    + unfold counted_expired in He. destruct (namespaced e); [reflexivity | discriminate].
  - intros key. apply get_unbound. rewrite clearAll_lookup, startsWith_app. reflexivity.
  - apply map_eq. intros k. rewrite (clearAll_lookup (LocalCache.clearAll b)).
    destruct (startsWith LocalCache.PREFIX k) eqn:Hk; [|reflexivity].
    rewrite clearAll_lookup, Hk. reflexivity.
  - unfold LocalCache.clearAll at 1. cbn [console log with_storage].
    rewrite length_keysToRemove, Hzero; [reflexivity | auto].
Qed.

End ClearAllThen.

(** * Further properties of the wrapper *)

Section WrapperExtras.
Context `{Platform} {P E : Type}.
Implicit Types (fetchFn : Producer P E) (s : Session P).



End WrapperExtras.

(** * The daily key and fetchYieldCurve *)

Section DailyKey.
Import Date.

(** The date text, and so the key, is a function of the day. *)
Lemma dailyKey_same_day (t1 t2 : Z) :
  Day t1 = Day t2 -> Treasury.dailyKey t1 = Treasury.dailyKey t2.
Proof.
  intros Hday. unfold Treasury.dailyKey. do 2 f_equal. rewrite !today_text.
  assert (Hy : YearFromTime t1 = YearFromTime t2)
    by (unfold YearFromTime; rewrite Hday; reflexivity).
  assert (Hl : InLeapYear t1 = InLeapYear t2)
    by (unfold InLeapYear; rewrite Hy; reflexivity).
  assert (Hw : DayWithinYear t1 = DayWithinYear t2)
    by (unfold DayWithinYear; rewrite Hday, Hy; reflexivity).
  assert (Hm : MonthFromTime t1 = MonthFromTime t2)
    by (unfold MonthFromTime; rewrite Hw, Hl; reflexivity).
  assert (Hd : DateFromTime t1 = DateFromTime t2)
    by (unfold DateFromTime; rewrite Hw, Hm, Hl; reflexivity).
  rewrite Hy, Hm, Hd. reflexivity.
Qed.

Lemma dailyKey_other_day (t1 t2 : Z) :
  valid t1 -> valid t2 -> Day t1 <> Day t2 ->
  Treasury.dailyKey t1 <> Treasury.dailyKey t2.
Proof.
  intros Hv1 Hv2 Hday Hkey. apply Hday. unfold Treasury.dailyKey in Hkey.
  apply append_inj_l, append_inj_l in Hkey. apply today_inj; assumption.
Qed.

(** X13: the daily key identifies the calendar day (UTC) and nothing else:
    two calls compute the same key exactly when they are made on the same
    day, whatever the time of day. *)
Theorem dailyKey_identifies_the_day (t1 t2 : Z) :
  valid t1 -> valid t2 ->
  (Treasury.dailyKey t1 = Treasury.dailyKey t2 <-> Day t1 = Day t2).
Proof.
  intros Hv1 Hv2. split.
  - intros Hkey. destruct (Z.eq_dec (Day t1) (Day t2)) as [Heq|Hne]; [exact Heq|].
    exfalso. exact (dailyKey_other_day t1 t2 Hv1 Hv2 Hne Hkey).
  - apply dailyKey_same_day.
Qed.

End DailyKey.

(** Midnight and the last millisecond of 2 November 2026 (UTC). *)
Lemma dailyKey_identifies_the_day_witness :
  Treasury.dailyKey 1793577600000 = Treasury.dailyKey 1793663999999.
Proof.
  apply dailyKey_identifies_the_day.
  - unfold Date.valid. lia.
  - unfold Date.valid. lia.
  - vm_compute. reflexivity.
Defined.

Section FetchYieldCurve.
Context `{Platform} {P : Type}.
Import YieldCurve.
Implicit Types (fetchYields : YieldSource P) (s : Session P).


Lemma fetchYieldCurve_hit_eq fetchYields s :
  truthy (fst (LocalCache.get (Treasury.dailyKey (clock (browser s))) (browser s))) = true ->
  fetchYieldCurve fetchYields s =
    (FromCache (fst (LocalCache.get (Treasury.dailyKey (clock (browser s))) (browser s))),
     mkSession (snd (LocalCache.get (Treasury.dailyKey (clock (browser s))) (browser s)))
               (producer s) (invocations s)).
Proof.
  intros Hhit. unfold fetchYieldCurve.
  destruct (LocalCache.get _ (browser s)) as [cached b]. cbn [fst snd] in *.
  rewrite Hhit. reflexivity.
Qed.

Lemma fetchYieldCurve_miss_eq fetchYields s :
  truthy (fst (LocalCache.get (Treasury.dailyKey (clock (browser s))) (browser s))) = false ->
  fetchYieldCurve fetchYields s =
    let dailyKey := Treasury.dailyKey (clock (browser s)) in
    let b := later (snd (fetchYields (producer s)))
                   (snd (LocalCache.get dailyKey (browser s))) in
    let p := snd (fst (fetchYields (producer s))) in
    match fst (fst (fetchYields (producer s))) with
    | (Some yield2Y, Some yield10Y) =>
      (FromApi (YieldCurveData yield2Y yield10Y (clock b)),
       mkSession (LocalCache.set dailyKey (YieldCurveData yield2Y yield10Y (clock b))
                    (ttl CACHE_CONFIG.TREASURY_YIELDS / 60) b)
                 p (S (invocations s)))
    | _ => (Demo, mkSession b p (S (invocations s)))
    end.
Proof.
  intros Hmiss. unfold fetchYieldCurve.
  destruct (LocalCache.get _ (browser s)) as [cached b]. cbn [fst snd] in *.
  rewrite Hmiss.
  destruct (fetchYields (producer s)) as [[[[y2|] [y10|]] p] elapsed]; reflexivity.
Qed.

(** X14: when the key of the day holds a truthy value, [fetchYieldCurve]
    returns it without any request and leaves storage as it is. *)
Theorem fetchYieldCurve_answers_from_the_cache fetchYields s :
  truthy (fst (LocalCache.get (Treasury.dailyKey (clock (browser s))) (browser s))) = true ->
  let r := fetchYieldCurve fetchYields s in
  fst r = FromCache (fst (LocalCache.get (Treasury.dailyKey (clock (browser s))) (browser s))) /\
  invocations (snd r) = invocations s /\
  producer (snd r) = producer s /\
  localStorage (browser (snd r)) = localStorage (browser s).
Proof.
  intros Hhit r. subst r. rewrite (fetchYieldCurve_hit_eq _ _ Hhit). cbn [fst snd browser].
  repeat (split; [reflexivity|]).
  destruct (get_storage (Treasury.dailyKey (clock (browser s))) (browser s))
    as [Hsame | [Hnull _]]; [exact Hsame|].
  rewrite Hnull in Hhit. discriminate.
Qed.


(** X16: when the lookup gives nothing truthy and a request gives no yield,
    [fetchYieldCurve] returns the demo data and writes nothing: storage is
    what the lookup left, so the demo data is never cached. *)
Theorem fetchYieldCurve_never_caches_demo_data fetchYields s yields p elapsed :
  truthy (fst (LocalCache.get (Treasury.dailyKey (clock (browser s))) (browser s))) = false ->
  fetchYields (producer s) = (yields, p, elapsed) ->
  fst yields = None \/ snd yields = None ->
  let r := fetchYieldCurve fetchYields s in
  fst r = Demo /\
  invocations (snd r) = S (invocations s) /\
  localStorage (browser (snd r))
    = localStorage (snd (LocalCache.get (Treasury.dailyKey (clock (browser s))) (browser s))) /\
  (forall k x, localStorage (browser (snd r)) !! k = Some x ->
               localStorage (browser s) !! k = Some x).
Proof.
  intros Hmiss Hf Hnone r. subst r.
  rewrite (fetchYieldCurve_miss_eq _ _ Hmiss), Hf. cbn [fst snd]. cbv zeta.
  assert (Hr : match yields with
               | (Some yield2Y, Some yield10Y) =>
                 (FromApi (YieldCurveData yield2Y yield10Y
                    (clock (later elapsed (snd (LocalCache.get
                       (Treasury.dailyKey (clock (browser s))) (browser s)))))),
                  mkSession (LocalCache.set (Treasury.dailyKey (clock (browser s)))
                     (YieldCurveData yield2Y yield10Y
                        (clock (later elapsed (snd (LocalCache.get
                           (Treasury.dailyKey (clock (browser s))) (browser s))))))
                     (ttl CACHE_CONFIG.TREASURY_YIELDS / 60)
                     (later elapsed (snd (LocalCache.get
                        (Treasury.dailyKey (clock (browser s))) (browser s)))))
                    p (S (invocations s)))
               | _ => (Demo, mkSession (later elapsed (snd (LocalCache.get
                          (Treasury.dailyKey (clock (browser s))) (browser s))))
                        p (S (invocations s)))
               end
               = (Demo, mkSession (later elapsed (snd (LocalCache.get
                          (Treasury.dailyKey (clock (browser s))) (browser s))))
                        p (S (invocations s)))).
  { destruct yields as [[y2|] [y10|]]; cbn [fst snd] in Hnone;
      try reflexivity; destruct Hnone; discriminate. }
  rewrite Hr. cbn [fst snd browser invocations later localStorage].
  repeat (split; [reflexivity|]).
  intros k x Hk.
  destruct (get_storage (Treasury.dailyKey (clock (browser s))) (browser s))
    as [Hsame | [_ Hdel]].
  - rewrite Hsame in Hk. exact Hk.
  - rewrite Hdel in Hk. apply lookup_delete_Some in Hk. tauto.
Qed.

End FetchYieldCurve.

Section FetchYieldCurveTwice.
Context `{Platform} {P : Type}.
Import YieldCurve.
Implicit Types (fetchYields : YieldSource P) (s : Session P).





End FetchYieldCurveTwice.

(** * The cache keys of the callers *)

Section CallerKeys.
Import CallerKeys.

Lemma first_char (c : ascii) (p r : string) : String.get 0 (String c p +:+ r) = Some c.
Proof. reflexivity. Qed.

(** X19: the cache keys of the callers do not collide: different symbols
    give different quote keys and different earnings keys, and for any
    symbols and any day the quote key, the earnings key, the daily key of
    the yield curve, the key of the MOVE index and the key of the
    predictions are five different keys. *)
Theorem caller_keys_do_not_collide :
  (forall symbol symbol', stockQuoteKey symbol = stockQuoteKey symbol' -> symbol = symbol') /\
  (forall symbol symbol', earningsKey symbol = earningsKey symbol' -> symbol = symbol') /\
  (forall symbol symbol' now,
     NoDup [stockQuoteKey symbol; earningsKey symbol'; Treasury.dailyKey now;
            moveIndexKey; polymarketKey]).
Proof.
  split; [|split].
  - intros symbol symbol'. apply append_inj_l.
  - intros symbol symbol' Heq. unfold earningsKey in Heq.
    apply append_inj_l, append_inj_l in Heq. exact Heq.
  - intros symbol symbol' now.
    assert (Hq : String.get 0 (stockQuoteKey symbol) = Some "s"%char) by apply first_char.
    assert (He : String.get 0 (earningsKey symbol') = Some "e"%char) by apply first_char.
    assert (Ht : String.get 0 (Treasury.dailyKey now) = Some "t"%char) by apply first_char.
    assert (Hm : String.get 0 moveIndexKey = Some "m"%char) by reflexivity.
    assert (Hp : String.get 0 polymarketKey = Some "p"%char) by reflexivity.
    repeat constructor; rewrite ?elem_of_cons, ?elem_of_nil;
      intros Hin; repeat destruct Hin as [Hin|Hin]; try contradiction;
      apply (f_equal (String.get 0)) in Hin; congruence.
Qed.

End CallerKeys.

(** * The Fear & Greed classification *)

Section FearGreedBands.

(** X20: the class name and the status text of a value always stand for the
    same band; a larger value never lands in a band of more fear; and a
    value that is not a number falls through every comparison into the band
    of extreme greed. *)
Theorem class_and_status_agree (value : number) :
  (exists band,
     band_of_class (FearGreed.getFearGreedClass value) = Some band /\
     band_of_status (FearGreed.getFearGreedStatus value) = Some band) /\
  (forall x y band band',
     x <= y ->
     band_of_class (FearGreed.getFearGreedClass (Finite x)) = Some band ->
     band_of_class (FearGreed.getFearGreedClass (Finite y)) = Some band' ->
     band_rank band <= band_rank band') /\
  FearGreed.getFearGreedClass NaN = "extreme-greed".
Proof.
  split; [|split; [|reflexivity]].
  - unfold FearGreed.getFearGreedClass, FearGreed.getFearGreedStatus.
    destruct (le value (Finite 24)); [exists ExtremeFear; split; reflexivity|].
    destruct (le value (Finite 44)); [exists Fear; split; reflexivity|].
    destruct (le value (Finite 55)); [exists Neutral; split; reflexivity|].
    destruct (le value (Finite 74)); [exists Greed; split; reflexivity|].
    exists ExtremeGreed; split; reflexivity.
  - intros x y band band' Hxy. unfold FearGreed.getFearGreedClass, le.
    destruct (Z.leb_spec x 24), (Z.leb_spec x 44), (Z.leb_spec x 55), (Z.leb_spec x 74),
      (Z.leb_spec y 24), (Z.leb_spec y 44), (Z.leb_spec y 55), (Z.leb_spec y 74);
      try lia; intros Hb Hb'; vm_compute in Hb, Hb';
      injection Hb as <-; injection Hb' as <-; vm_compute; discriminate.
Qed.

(** X21: the same for the functions of the sentiment panel, with their own
    thresholds; there an undefined value gives the empty class and the
    empty status. *)
Theorem panel_class_and_status_agree (value : number) :
  (exists band,
     band_of_class (FearGreedPanel.getFearGreedClass (Some value)) = Some band /\
     band_of_status (FearGreedPanel.getFearGreedStatus (Some value)) = Some band) /\
  (forall x y band band',
     x <= y ->
     band_of_class (FearGreedPanel.getFearGreedClass (Some (Finite x))) = Some band ->
     band_of_class (FearGreedPanel.getFearGreedClass (Some (Finite y))) = Some band' ->
     band_rank band <= band_rank band') /\
  FearGreedPanel.getFearGreedClass (Some NaN) = "extreme-greed" /\
  FearGreedPanel.getFearGreedClass None = EmptyString /\
  FearGreedPanel.getFearGreedStatus None = EmptyString.
Proof.
  split; [|split; [|repeat split]].
  - unfold FearGreedPanel.getFearGreedClass, FearGreedPanel.getFearGreedStatus.
    destruct (le value (Finite 20)); [exists ExtremeFear; split; reflexivity|].
    destruct (le value (Finite 40)); [exists Fear; split; reflexivity|].
    destruct (le value (Finite 60)); [exists Neutral; split; reflexivity|].
    destruct (le value (Finite 80)); [exists Greed; split; reflexivity|].
    exists ExtremeGreed; split; reflexivity.
  - intros x y band band' Hxy. unfold FearGreedPanel.getFearGreedClass, le.
    destruct (Z.leb_spec x 20), (Z.leb_spec x 40), (Z.leb_spec x 60), (Z.leb_spec x 80),
      (Z.leb_spec y 20), (Z.leb_spec y 40), (Z.leb_spec y 60), (Z.leb_spec y 80);
      try lia; intros Hb Hb'; vm_compute in Hb, Hb';
      injection Hb as <-; injection Hb' as <-; vm_compute; discriminate.
Qed.

End FearGreedBands.

(** * hashCode and timeAgo *)

Section NewsHelpers.
Import News.

Lemma ToInt32_range (x : Z) : - 2 ^ 31 <= ToInt32 x < 2 ^ 31.
Proof.
  unfold ToInt32. change (2 ^ 31) with 2147483648. change (2 ^ 32) with 4294967296. euclid.
Qed.

Lemma ToInt32_small (x : Z) : - 2 ^ 31 <= x < 2 ^ 31 -> ToInt32 x = x.
Proof.
  unfold ToInt32. change (2 ^ 31) with 2147483648. change (2 ^ 32) with 4294967296.
  intros Hx. euclid.
Qed.

(** One turn of the loop multiplies by 31 and adds the code unit, modulo
    [2 ^ 32]. *)
Lemma hash_step_poly (h char : Z) :
  hash_step (ToInt32 h) char = ToInt32 (31 * h + char).
Proof.
  unfold hash_step, bitand, shl. rewrite Z.land_diag, Z.shiftl_mul_pow2 by lia.
  rewrite (ToInt32_small (ToInt32 h)) by apply ToInt32_range.
  unfold ToInt32. change (2 ^ 31) with 2147483648. change (2 ^ 32) with 4294967296.
  change (2 ^ 5) with 32. euclid.
Qed.

(** X22: the loop of [hashCode] computes the polynomial hash of the code
    units, [c0 * 31^(n-1) + ... + c(n-1)], wrapped to a 32-bit signed
    integer; so the number handed to [toString(36)] lies between 0 and
    [2 ^ 31], and the empty string hashes to 0. *)
Theorem hashCode_is_the_polynomial_hash (str : list Z) :
  hash_of str = ToInt32 (fold_left (fun h c => 31 * h + c) str 0) /\
  - 2 ^ 31 <= hash_of str < 2 ^ 31 /\
  0 <= Z.abs (hash_of str) <= 2 ^ 31 /\
  hash_of [] = 0.
Proof.
  assert (Hloop : forall l h, fold_left hash_step l (ToInt32 h)
                              = ToInt32 (fold_left (fun h c => 31 * h + c) l h)).
  { induction l as [|c l IH]; intros h; [reflexivity|].
    cbn [fold_left]. rewrite hash_step_poly. apply IH. }
  assert (Heq : hash_of str = ToInt32 (fold_left (fun h c => 31 * h + c) str 0)).
  { unfold hash_of. rewrite <- Hloop. reflexivity. }
  split; [exact Heq|].
  pose proof (ToInt32_range (fold_left (fun h c => 31 * h + c) str 0)) as Hr.
  rewrite <- Heq in Hr. split; [exact Hr|]. split; [lia | reflexivity].
Qed.

(** X23: [timeAgo] shows the age rounded down in the largest unit that
    fits: seconds below one minute (a timestamp in the future gives a
    negative number of seconds), minutes below one hour, hours below one
    day, days beyond; a timestamp that is not a number gives ["NaNd ago"]. *)
Theorem timeAgo_rounds_down (now timestamp : Z) :
  let age := now - timestamp in
  timeAgo now (Finite timestamp) =
    (if age <? 60000 then show (Finite (age / 1000)) +:+ "s ago"
     else if age <? 3600000 then show (Finite (age / 60000)) +:+ "m ago"
     else if age <? 86400000 then show (Finite (age / 3600000)) +:+ "h ago"
     else show (Finite (age / 86400000)) +:+ "d ago") /\
  (60000 <= age -> 1 <= age / 60000) /\
  (age < 3600000 -> age / 60000 < 60) /\
  (age < 86400000 -> age / 3600000 < 24) /\
  timeAgo now NaN = "NaNd ago".
Proof.
  intros age. split; [|repeat split; try (intros; euclid)].
  unfold timeAgo, floor_div, lt, minus. fold age.
  assert (Hm : age / 1000 / 60 = age / 60000) by euclid.
  assert (Hh : age / 1000 / 60 / 60 = age / 3600000) by euclid.
  assert (Hd : age / 1000 / 60 / 60 / 24 = age / 86400000) by euclid.
  rewrite Hd, Hh, Hm.
  destruct (Z.ltb_spec (age / 1000) 60), (Z.ltb_spec age 60000); try euclid; [reflexivity|].
  destruct (Z.ltb_spec (age / 60000) 60), (Z.ltb_spec age 3600000); try euclid; [reflexivity|].
  destruct (Z.ltb_spec (age / 3600000) 24), (Z.ltb_spec age 86400000); try euclid; reflexivity.
Qed.

End NewsHelpers.

(** * Examples of the further properties *)

Section MoreScenarios.
Import Scenario YieldScenario YieldCurve.
#[local] Existing Instance Reference.platform.


(** An entry stored at 0 for one minute, read at 61 s. *)
Lemma expired_entry_leaves_the_statistics_witness :
  let b := at_time 61000 (LocalCache.set "k" (JStr "A") 1 (mkBrowser ∅ 0 [])) in
  let b' := snd (LocalCache.get "k" b) in
  fst (LocalCache.get "k" b) = null /\
  LocalCache.total (LocalCache.getStats b) = S (LocalCache.total (LocalCache.getStats b')) /\
  LocalCache.valid (LocalCache.getStats b) = LocalCache.valid (LocalCache.getStats b') /\
  LocalCache.expired (LocalCache.getStats b) = S (LocalCache.expired (LocalCache.getStats b')).
Proof.
  intros b.
  apply (expired_entry_leaves_the_statistics "k" b (JStr "A") 0 60000).
  - exists (JSON_stringify (LocalCache.CacheItem (JStr "A") 0 60000)).
    exists (LocalCache.CacheItem (JStr "A") 0 60000).
    repeat split; vm_compute; reflexivity.
  - vm_compute. reflexivity.
Defined.


(** The key holds ["A"], stored at 0 for one minute; a call at 30 s. *)
Lemma fetchWithCache_serves_truthy_witness :
  let s := mkSession (at_time 30000 (LocalCache.set "k" (JStr "A") 1 (mkBrowser ∅ 0 [])))
                     7%nat 0%nat in
  let r := fetchWithCache "k" counter (Some 1) None s in
  fst r = Returned (J (JStr "A")) /\
  invocations (snd r) = 0%nat /\
  producer (snd r) = 7%nat.
Proof.
  intros s r.
  apply (fetchWithCache_serves_truthy "k" counter (Some 1) None s (JStr "A") 0 60000).
  - reflexivity.
  - exists (JSON_stringify (LocalCache.CacheItem (JStr "A") 0 60000)).
    exists (LocalCache.CacheItem (JStr "A") 0 60000).
    repeat split; vm_compute; reflexivity.
  - vm_compute. discriminate.
  - reflexivity.
Defined.






(** So is, by the cache, the same call seen as a hit. *)
Lemma fetchYieldCurve_answers_from_the_cache_witness :
  let t0 := 1793577600000 in
  let s1 := snd (fetchYieldCurve both (fresh_at t0)) in
  let s := mkSession (at_time (t0 + 30000) (browser s1)) (producer s1) (invocations s1) in
  let r := fetchYieldCurve partial s in
  fst r = FromCache (fst (LocalCache.get (Treasury.dailyKey (clock (browser s))) (browser s))) /\
  invocations (snd r) = invocations s /\
  producer (snd r) = producer s /\
  localStorage (browser (snd r)) = localStorage (browser s).
Proof.
  intros t0 s1 s.
  apply (fetchYieldCurve_answers_from_the_cache partial s).
  vm_compute. reflexivity.
Defined.

(** A fetch that fails on an empty store leaves the store empty. *)
Lemma fetchYieldCurve_never_caches_demo_data_witness :
  let s := fresh_at 1793577600000 in
  let r := fetchYieldCurve partial s in
  fst r = Demo /\
  invocations (snd r) = 1%nat /\
  localStorage (browser (snd r))
    = localStorage (snd (LocalCache.get (Treasury.dailyKey (clock (browser s))) (browser s))) /\
  (forall k x, localStorage (browser (snd r)) !! k = Some x ->
               localStorage (browser s) !! k = Some x).
Proof.
  apply (fetchYieldCurve_never_caches_demo_data partial (fresh_at 1793577600000)
           (None, Some (mkYield "2026-10-30" 5)) tt 15000).
  - vm_compute. reflexivity.
  - reflexivity.
  - left. reflexivity.
Defined.


End MoreScenarios.

(** * The statistics and the rest of storage *)

Section StatsAndForeignEntries.
Context `{Platform}.
#[local] Arguments startsWith : simpl never.

(** The statistics of storage without a key that is not namespaced. *)
Lemma getStats_without_foreign (k : string) (st : gmap string string) (now : Z) (log0 log1 : list LogEvent) :
  startsWith LocalCache.PREFIX k = false ->
  LocalCache.getStats (mkBrowser st now log0)
  = LocalCache.getStats (mkBrowser (delete k st) now log1).
Proof.
  intros Hk. rewrite !getStats_tallies. cbn [localStorage clock].
  destruct (st !! k) as [v|] eqn:Hst; [|rewrite (delete_id _ _ Hst); reflexivity].
  rewrite !(tally_binding _ _ _ _ Hst).
  unfold counted_valid, counted_expired, namespaced. cbn [fst]. rewrite Hk. reflexivity.
Qed.

(** X24: [getStats] ignores what is not the cache's: writing, replacing or
    deleting an entry whose key lacks the namespace prefix changes none of
    the three counts. *)
Theorem getStats_ignores_foreign_entries (k v : string) (b : Browser) :
  startsWith LocalCache.PREFIX k = false ->
  LocalCache.getStats (with_storage (setItem k v) b) = LocalCache.getStats b /\
  LocalCache.getStats (with_storage (removeItem k) b) = LocalCache.getStats b.
Proof.
  intros Hk. destruct b as [st now out]. unfold with_storage, setItem, removeItem.
  cbn [localStorage clock console]. split.
  - rewrite (getStats_without_foreign k _ now out out Hk), delete_insert_eq.
    symmetry. apply getStats_without_foreign, Hk.
  - symmetry. apply getStats_without_foreign, Hk.
Qed.

(** X25: the count that [clearAll()] logs is the [total] that [getStats()]
    reports just before it. *)
Theorem clearAll_logs_the_total (b : Browser) :
  console (LocalCache.clearAll b)
  = (console b ++ [Cleared (LocalCache.total (LocalCache.getStats b))])%list.
Proof.
  unfold LocalCache.clearAll. cbn [console log with_storage].
  rewrite length_keysToRemove, getStats_tallies. reflexivity.
Qed.

End StatsAndForeignEntries.

Section StatsScenarios.
#[local] Existing Instance Reference.platform.

(** A theme setting next to a cache entry. *)
Lemma getStats_ignores_foreign_entries_witness :
  let b := LocalCache.set "k" (JStr "A") 1 (mkBrowser ∅ 0 []) in
  LocalCache.getStats (with_storage (setItem "theme" "dark") b) = LocalCache.getStats b /\
  LocalCache.getStats (with_storage (removeItem "theme") b) = LocalCache.getStats b.
Proof.
  apply getStats_ignores_foreign_entries. reflexivity.
Defined.

End StatsScenarios.
